(** * ti.speech: the recognition session wrapper of [example/app/lib/ti.speech.js]

    The module keeps four module-level variables ([audioEngine], [request],
    [recognitionTask], [speechRecognizer]) and drives the platform's speech
    and audio objects through them.  The embedding below keeps the variables
    as a record, threads it through a small state-and-exception monad, and
    records every call into the platform (and every log line and progress
    callback) in a trace, oldest event first.

    Conventions:
    - a call into the platform is recorded, not interpreted: what
      [cancel()], [endAudio()] or [removeTapOnBus(0)] do inside the platform
      is not part of the JavaScript; a call of a method the object does not
      have is a TypeError of the JavaScript, and is modelled as one;
    - what the platform answers (whether a request could be built, whether
      the engine started, the state of a task) is an input of each call, the
      [Platform] record;
    - a variable that may hold an object is a [Ref]: undefined, null or the
      object, so that [x && f(x)] returns what JavaScript returns;
    - [args.type] and [args.url] are strings or absent, as documented;
      [args.progress] and [args.id] are arbitrary values;
    - the function literal given to the platform with each task is a
      [Closure] in a table indexed by task; the platform calling it is the
      operation [OpResult]. *)

From Stdlib Require Import ZArith Lia Ascii String.
From stdpp Require Import base list strings.

Local Open Scope string_scope.
Local Open Scope list_scope.

(** ** JavaScript values *)

(** A variable that holds an object: [var x;] leaves it [Undefined], the
    code assigns [null] or an object. *)
Inductive Ref (A : Type) : Type :=
| Undefined
| Null
| Obj (a : A).
Arguments Undefined {A}.
Arguments Null {A}.
Arguments Obj {A} a.

(** Truthiness of an object reference: [if (x)], [!x], [x && ...]. *)
Definition truthy {A} (r : Ref A) : bool :=
  match r with Obj _ => true | _ => false end.

(** [r && f(r)] for an object reference [r]: the falsy reference itself, or
    the value computed from the object. *)
Definition and_then {A B} (r : Ref A) (f : A -> B) : Ref B :=
  match r with
  | Undefined => Undefined
  | Null => Null
  | Obj a => Obj (f a)
  end.

(** Truthiness of the outcome of [r && <boolean>]. *)
Definition is_true (r : Ref bool) : bool :=
  match r with Obj true => true | _ => false end.

(** The values a caller may pass for [args.progress] and [args.id]. *)
Inductive JsVal : Type :=
| VUndefined
| VNull
| VBool (b : bool)
| VNum (n : Z)
| VStr (s : string)
| VFun (f : nat)
| VObj (o : nat).

Definition val_truthy (v : JsVal) : bool :=
  match v with
  | VUndefined | VNull => false
  | VBool b => b
  | VNum n => negb (n =? 0)%Z
  | VStr s => negb (String.eqb s "")
  | VFun _ | VObj _ => true
  end.

(** [v || null]. *)
Definition or_null (v : JsVal) : JsVal :=
  if val_truthy v then v else VNull.

(** [_.isFunction(v)]. *)
Definition isFunction (v : JsVal) : bool :=
  match v with VFun _ => true | _ => false end.

(** Truthiness of an optional string property ([args.type], [args.url],
    [locale]): absent and the empty string are falsy. *)
Definition str_truthy (o : option string) : bool :=
  match o with
  | Some s => negb (String.eqb s "")
  | None => false
  end.

(** ** Platform objects *)

Inductive TaskState : Type :=
| SFSpeechRecognitionTaskStateStarting
| SFSpeechRecognitionTaskStateRunning
| SFSpeechRecognitionTaskStateFinishing
| SFSpeechRecognitionTaskStateCanceling
| SFSpeechRecognitionTaskStateCompleted.

Definition is_canceling (st : TaskState) : bool :=
  match st with SFSpeechRecognitionTaskStateCanceling => true | _ => false end.

Inductive Recognizer : Type :=
| DefaultRecognizer
| LocaleRecognizer (locale : string).

Inductive RequestKind : Type :=
| SFSpeechURLRecognitionRequest (resource ext : string)
| SFSpeechAudioBufferRecognitionRequest.

Record Request : Type := {
  req_kind : RequestKind;
  shouldReportPartialResults : bool
}.

(** The two requests the module builds, [shouldReportPartialResults]
    already set. *)
Definition url_request (name ext : string) : Request :=
  {| req_kind := SFSpeechURLRecognitionRequest name ext;
     shouldReportPartialResults := true |}.

Definition buffer_request : Request :=
  {| req_kind := SFSpeechAudioBufferRecognitionRequest;
     shouldReportPartialResults := true |}.

Record Task : Type := {
  task_id : nat;
  task_request : Request
}.

(** [tapInstalled] is a property the module itself puts on the input node;
    it is undefined until the first assignment. *)
Record InputNode : Type := {
  tapInstalled : Ref bool
}.

Record AudioEngine : Type := {
  inputNode : Ref InputNode;
  isRunning : bool
}.

(** The [result] argument of a recognition callback. *)
Record Result : Type := {
  formattedString : string;
  isFinal : bool
}.

(** What the platform answers during one call of the module. *)
Record Platform : Type := {
  plat_locale : string -> bool;
      (* initWithLocale returns a recognizer for this identifier *)
  plat_available : bool;
      (* speechRecognizer.isAvailable() *)
  plat_url_request : string -> string -> bool;
      (* initWithURL returns a request for resource name / extension *)
  plat_input_node : bool;
      (* a new AVAudioEngine exposes an input node *)
  plat_engine_start : bool;
      (* audioEngine.startAndReturnError(...) *)
  plat_task_state : TaskState
      (* recognitionTask.state *)
}.

(** ** Callers' arguments, closures, events *)

Record Args : Type := {
  arg_progress : JsVal;
  arg_type : option string;
  arg_id : JsVal;
  arg_url : option string
}.

Inductive HandlerKind : Type := UrlHandler | MicrophoneHandler.

(** The closure handed to [recognitionTaskWithRequestResultHandler]: which
    of the two function literals it is, and the two locals of
    [startRecognition] it captures.  [progressCallback] is assigned by the
    url handler, so it is part of the mutable state. *)
Record Closure : Type := {
  c_kind : HandlerKind;
  c_instance : JsVal;
  c_progressCallback : JsVal
}.

(** The object literal passed to the progress callback. *)
Record ProgressEvent : Type := {
  ev_id : JsVal;
  ev_error : Ref nat;
  ev_value : Ref string;
  ev_state : Ref TaskState;
  ev_finished : Ref bool
}.

Inductive Event : Type :=
| ApiError (msg : string)            (* Ti.API.error *)
| ConsoleError (msg : string)        (* console.error *)
| ConsoleInfo (msg : string)         (* console.info *)
| RecognizerInit (locale : option string)
                                     (* initWithLocale(...) / new SFSpeechRecognizer() *)
| TaskCreate (t : nat)               (* recognitionTaskWithRequestResultHandler *)
| TaskCancel (t : nat)               (* recognitionTask.cancel() *)
| EngineCreate                       (* new AVAudioEngine() *)
| RemoveTap                          (* inputNode.removeTapOnBus(0) *)
| InstallTap                         (* inputNode.installTapOnBus...(0, 1024, ...) *)
| EnginePrepare                      (* audioEngine.prepare() *)
| EngineStart                        (* audioEngine.startAndReturnError(...) *)
| EngineStop                         (* audioEngine.stop() *)
| EndAudio                           (* request.endAudio() *)
| Progress (t : nat) (cb : JsVal) (ev : ProgressEvent).
                                     (* progressCallback({...}) from the handler of task t *)

(** ** Module state *)

Record State : Type := {
  audioEngine : Ref AudioEngine;
  request : Ref Request;
  recognitionTask : Ref Task;
  speechRecognizer : Ref Recognizer;
  handlers : list Closure;   (* closure of task t at index t *)
  trace : list Event
}.

Definition initial : State :=
  {| audioEngine := Undefined; request := Undefined;
     recognitionTask := Undefined; speechRecognizer := Undefined;
     handlers := []; trace := [] |}.

Definition set_audioEngine (v : Ref AudioEngine) (s : State) : State :=
  {| audioEngine := v; request := request s;
     recognitionTask := recognitionTask s;
     speechRecognizer := speechRecognizer s;
     handlers := handlers s; trace := trace s |}.

Definition set_request (v : Ref Request) (s : State) : State :=
  {| audioEngine := audioEngine s; request := v;
     recognitionTask := recognitionTask s;
     speechRecognizer := speechRecognizer s;
     handlers := handlers s; trace := trace s |}.

Definition set_recognitionTask (v : Ref Task) (s : State) : State :=
  {| audioEngine := audioEngine s; request := request s;
     recognitionTask := v;
     speechRecognizer := speechRecognizer s;
     handlers := handlers s; trace := trace s |}.

Definition set_speechRecognizer (v : Ref Recognizer) (s : State) : State :=
  {| audioEngine := audioEngine s; request := request s;
     recognitionTask := recognitionTask s;
     speechRecognizer := v;
     handlers := handlers s; trace := trace s |}.

Definition set_handlers (v : list Closure) (s : State) : State :=
  {| audioEngine := audioEngine s; request := request s;
     recognitionTask := recognitionTask s;
     speechRecognizer := speechRecognizer s;
     handlers := v; trace := trace s |}.

Definition set_trace (v : list Event) (s : State) : State :=
  {| audioEngine := audioEngine s; request := request s;
     recognitionTask := recognitionTask s;
     speechRecognizer := speechRecognizer s;
     handlers := handlers s; trace := v |}.

(** ** The monad: module state and JavaScript exceptions *)

Inductive Completion (A : Type) : Type :=
| Normal (a : A)
| TypeError (msg : string).
Arguments Normal {A} a.
Arguments TypeError {A} msg.

Definition JS (A : Type) : Type := State -> Completion A * State.

Definition ret {A} (a : A) : JS A := fun s => (Normal a, s).

Definition bind {A B} (m : JS A) (k : A -> JS B) : JS B :=
  fun s =>
    match m s with
    | (Normal a, s') => k a s'
    | (TypeError msg, s') => (TypeError msg, s')
    end.

Definition throw {A} (msg : string) : JS A := fun s => (TypeError msg, s).

Definition gets {A} (f : State -> A) : JS A := fun s => (Normal (f s), s).

Definition modify (f : State -> State) : JS unit := fun s => (Normal tt, f s).

Definition emit (e : Event) : JS unit :=
  modify (fun s => set_trace (trace s ++ [e]) s).

Definition when (b : bool) (m : JS unit) : JS unit :=
  if b then m else ret tt.

Declare Scope js_scope.
Delimit Scope js_scope with js.
Notation "'let*' x ':=' m 'in' k" := (bind m (fun x => k))
  (at level 10, x name, m at level 100, k at level 200) : js_scope.
Notation "m ';;' k" := (bind m (fun _ => k))
  (at level 100, k at level 200, right associativity) : js_scope.
Local Open Scope js_scope.

(** ** initialize *)

Definition initialize (p : Platform) (locale : option string) : JS unit :=
  let* sr := gets speechRecognizer in
  when (truthy sr) (modify (set_speechRecognizer Null)) ;;
  if str_truthy locale then
    let l := default "" locale in
    emit (RecognizerInit (Some l)) ;;
    modify (set_speechRecognizer
              (if plat_locale p l then Obj (LocaleRecognizer l) else Null))
  else
    emit (RecognizerInit None) ;;
    modify (set_speechRecognizer (Obj DefaultRecognizer)).

(** ** isAvailable: [speechRecognizer && speechRecognizer.isAvailable()] *)

Definition isAvailable (p : Platform) (s : State) : Ref bool :=
  and_then (speechRecognizer s) (fun _ => plat_available p).

(** ** startRecognition *)

(** [s.split('.')]. *)
Fixpoint split_dot (s : string) : list string :=
  match s with
  | EmptyString => [""]
  | String c r =>
      if Ascii.eqb c "."%char then "" :: split_dot r
      else match split_dot r with
           | h :: t => String c h :: t
           | [] => [String c ""]
           end
  end.

(** [var url = args.url.split('.'); var ext = url.pop();] followed by
    [url.join('.')]: resource name and extension. *)
Definition resource_of (u : string) : string * string :=
  let url := split_dot u in
  (String.concat "." (removelast url), List.last url "").

(** [type] after the defaulting of lines 164-168. *)
Definition effective_type (args : Args) : string :=
  if negb (str_truthy (arg_type args)) && str_truthy (arg_url args) then "url"
  else if negb (str_truthy (arg_type args)) then "microphone"
  else default "" (arg_type args).

(** The text logged through Ti.API.error when no callback is supplied; the
    word progress is in double quotes in the source. *)
Definition no_progress_message : string :=
  let q := String (ascii_of_nat 34) EmptyString in
  "No " +:+ q +:+ "progress" +:+ q +:+
  " callback supplied - You will not be notified about transcription updates".

Definition SOURCE_TYPE_URL : string := "url".
Definition SOURCE_TYPE_MICROPHONE : string := "microphone".

(** [recognitionTask = speechRecognizer.recognitionTaskWithRequestResultHandler(request, function ...)]:
    calling the method on an absent recognizer is a TypeError, before
    anything is assigned. *)
Definition recognitionTaskWithRequestResultHandler
    (r : Request) (c : Closure) : JS unit :=
  let* sr := gets speechRecognizer in
  match sr with
  | Obj _ =>
      let* hs := gets handlers in
      let t := length hs in
      modify (set_handlers (hs ++ [c])) ;;
      emit (TaskCreate t) ;;
      modify (set_recognitionTask (Obj {| task_id := t; task_request := r |}))
  | _ => throw "speechRecognizer.recognitionTaskWithRequestResultHandler"
  end.

(** [audioEngine.inputNode.tapInstalled = v], where both objects exist. *)
Definition set_tapInstalled (v : bool) (s : State) : State :=
  match audioEngine s with
  | Obj e =>
      match inputNode e with
      | Obj _ =>
          set_audioEngine
            (Obj {| inputNode := Obj {| tapInstalled := Obj v |};
                    isRunning := isRunning e |}) s
      | _ => s
      end
  | _ => s
  end.

(** [audioEngine.inputNode && audioEngine.inputNode.tapInstalled], as a
    condition. *)
Definition tap_flag (e : AudioEngine) : bool :=
  match inputNode e with
  | Obj n => is_true (tapInstalled n)
  | _ => false
  end.

Definition set_isRunning (v : bool) (s : State) : State :=
  match audioEngine s with
  | Obj e => set_audioEngine (Obj {| inputNode := inputNode e; isRunning := v |}) s
  | _ => s
  end.

(** Lines 174-183: the previous task is cancelled and forgotten, the
    previous request forgotten. *)
Definition teardown : JS unit :=
  let* task := gets recognitionTask in
  match task with
  | Obj t => emit (TaskCancel (task_id t)) ;; modify (set_recognitionTask Null)
  | _ => ret tt
  end ;;
  let* req := gets request in
  when (truthy req) (modify (set_request Null)).

(** Lines 186-244: the branch [type == SOURCE_TYPE_URL]. *)
Definition startRecognition_url (p : Platform) (args : Args)
    (progressCallback instance : JsVal) : JS bool :=
  match arg_url args with
  | None => throw "args.url.split"
  | Some u =>
      let '(name, ext) := resource_of u in
      if plat_url_request p name ext then
        (* request = ...initWithURL(soundURL); request.shouldReportPartialResults = true *)
        let r := url_request name ext in
        modify (set_request (Obj r)) ;;
        let* sr := gets speechRecognizer in
        when (negb (truthy sr)) (initialize p None) ;;
        recognitionTaskWithRequestResultHandler r
          {| c_kind := UrlHandler; c_instance := instance;
             c_progressCallback := progressCallback |} ;;
        ret true
      else
        modify (set_request Null) ;;
        emit (ConsoleError "Unable to created a SFSpeechURLRecognitionRequest object") ;;
        ret false
  end.

(** Lines 247-307: the branch [type == SOURCE_TYPE_MICROPHONE]. *)
Definition startRecognition_microphone (p : Platform)
    (progressCallback instance : JsVal) : JS bool :=
  let* eng := gets audioEngine in
  when (negb (truthy eng))
    (emit EngineCreate ;;
     modify (set_audioEngine
               (Obj {| inputNode :=
                         if plat_input_node p
                         then Obj {| tapInstalled := Undefined |} else Null;
                       isRunning := false |}))) ;;
  let* node := gets (fun s => and_then (audioEngine s) inputNode) in
  match node with
  | Obj (Obj _) =>
      (* request = new SFSpeechAudioBufferRecognitionRequest(); request.shouldReportPartialResults = true *)
      let r := buffer_request in
      modify (set_request (Obj r)) ;;
      recognitionTaskWithRequestResultHandler r
        {| c_kind := MicrophoneHandler; c_instance := instance;
           c_progressCallback := progressCallback |} ;;
      (* if (audioEngine.inputNode) { removeTapOnBus(0); tapInstalled = false } *)
      emit RemoveTap ;;
      modify (set_tapInstalled false) ;;
      emit InstallTap ;;
      modify (set_tapInstalled true) ;;
      emit EnginePrepare ;;
      emit EngineStart ;;
      if plat_engine_start p then
        modify (set_isRunning true) ;;
        ret true
      else ret false
  | _ =>
      emit (ConsoleError "Audio engine has no input node") ;;
      ret false
  end.

Definition startRecognition (p : Platform) (args : Args) : JS bool :=
  let progressCallback := or_null (arg_progress args) in
  let type := effective_type args in
  let instance := arg_id args in
  when (negb (val_truthy progressCallback))
    (emit (ApiError no_progress_message)) ;;
  teardown ;;
  if String.eqb type SOURCE_TYPE_URL then
    startRecognition_url p args progressCallback instance
  else if String.eqb type SOURCE_TYPE_MICROPHONE then
    startRecognition_microphone p progressCallback instance
  else
    emit (ConsoleError ("Unhandled type supplied:" +:+ type)) ;;
    ret false.

(** ** The result handlers *)

(** [request && request.endAudio()].  [endAudio] is a method of the buffer
    request only: on the url request of line 191 the property is undefined
    and calling it is a TypeError, which ends the function that made the
    call. *)
Definition request_endAudio : JS unit :=
  let* req := gets request in
  match req with
  | Obj r =>
      match req_kind r with
      | SFSpeechAudioBufferRecognitionRequest => emit EndAudio
      | SFSpeechURLRecognitionRequest _ _ => throw "request.endAudio"
      end
  | _ => ret tt
  end.

(** [_.isFunction(progressCallback) && progressCallback({...})], called from
    the handler of task [t]. *)
Definition report (t : nat) (cb : JsVal) (ev : ProgressEvent) : JS unit :=
  when (isFunction cb) (emit (Progress t cb ev)).

(** [progressCallback = null] inside the closure of task [t]. *)
Definition clear_progressCallback (t : nat) (s : State) : State :=
  match handlers s !! t with
  | Some c =>
      set_handlers
        (<[t := {| c_kind := c_kind c; c_instance := c_instance c;
                   c_progressCallback := VNull |}]> (handlers s)) s
  | None => s
  end.

(** The function literal of lines 203-243, as the closure [c] of task [t]. *)
Definition url_handler (p : Platform) (t : nat) (c : Closure)
    (result : Ref Result) (error : Ref nat) : JS unit :=
  let* task := gets recognitionTask in
  if negb (truthy task) then ret tt
  else if is_canceling (plat_task_state p) then
    emit (ConsoleInfo "The speech recognition task has been cancelled.") ;;
    report t (c_progressCallback c)
      {| ev_id := c_instance c;
         ev_error := error;
         ev_value := and_then result formattedString;
         ev_state := and_then task (fun _ => plat_task_state p);
         ev_finished := Obj true |} ;;
    modify (clear_progressCallback t) ;;
    modify (set_request Null) ;;
    modify (set_recognitionTask Null)
  else
    report t (c_progressCallback c)
      {| ev_id := c_instance c;
         ev_error := error;
         ev_value := and_then result formattedString;
         ev_state := and_then task (fun _ => plat_task_state p);
         ev_finished := and_then result isFinal |} ;;
    when (truthy error || is_true (and_then result isFinal))
      (modify (set_recognitionTask Null) ;;
       modify (set_request Null)).

(** The function literal of lines 260-286. *)
Definition microphone_handler (p : Platform) (t : nat) (c : Closure)
    (result : Ref Result) (error : Ref nat) : JS unit :=
  let final := and_then result isFinal in
  let* task := gets recognitionTask in
  report t (c_progressCallback c)
    {| ev_id := c_instance c;
       ev_error := error;
       ev_value := and_then result formattedString;
       ev_state := and_then task (fun _ => plat_task_state p);
       ev_finished := final |} ;;
  when (truthy error || is_true final)
    (let* eng := gets audioEngine in
     match eng with
     | Obj e =>
         when (tap_flag e)
           (emit RemoveTap ;; modify (set_tapInstalled false)) ;;
         when (isRunning e) (emit EngineStop ;; modify (set_isRunning false))
     | _ => ret tt
     end ;;
     request_endAudio ;;
     modify (set_recognitionTask Null)).

(** The platform calls the handler it was given for task [t]. *)
Definition result_handler (p : Platform) (t : nat)
    (result : Ref Result) (error : Ref nat) : JS unit :=
  let* hs := gets handlers in
  match hs !! t with
  | Some c =>
      match c_kind c with
      | UrlHandler => url_handler p t c result error
      | MicrophoneHandler => microphone_handler p t c result error
      end
  | None => ret tt
  end.

(** ** stopRecognition *)

Definition stopRecognition : JS unit :=
  let* eng := gets audioEngine in
  match eng with
  | Obj e =>
      when (isRunning e) (emit EngineStop ;; modify (set_isRunning false)) ;;
      request_endAudio ;;
      when (tap_flag e)
        (emit RemoveTap ;; modify (set_tapInstalled false))
  | _ =>
      let* task := gets recognitionTask in
      match task with
      | Obj t => emit (TaskCancel (task_id t))
      | _ => ret tt
      end
  end.

(** ** Runs: the calls of the application and of the platform *)

Inductive Op : Type :=
| OpInitialize (locale : option string)
| OpStart (args : Args)
| OpStop
| OpResult (t : nat) (result : Ref Result) (error : Ref nat).

(** One call; a TypeError leaves the module variables as they were when it
    was raised. *)
Definition step (p : Platform) (o : Op) (s : State) : State :=
  match o with
  | OpInitialize locale => snd (initialize p locale s)
  | OpStart args => snd (startRecognition p args s)
  | OpStop => snd (stopRecognition s)
  | OpResult t result error => snd (result_handler p t result error s)
  end.

Fixpoint run (ops : list (Platform * Op)) (s : State) : State :=
  match ops with
  | [] => s
  | (p, o) :: rest => run rest (step p o s)
  end.

(** Tasks created and not cancelled, from a trace. *)
Definition live_step (l : list nat) (e : Event) : list nat :=
  match e with
  | TaskCreate t => l ++ [t]
  | TaskCancel t => List.filter (fun u => negb (Nat.eqb u t)) l
  | _ => l
  end.

Definition live (tr : list Event) : list nat := fold_left live_step tr [].

(** ** Vocabulary of the statements *)

(** A variable after [if (x) { x = null; }]. *)
Definition cleared {A} (r : Ref A) : Ref A := if truthy r then Null else r.

(** What lines 170-179 add to the trace: the warning about a missing
    callback, then the cancellation of the tracked task. *)
Definition prologue_events (args : Args) (s : State) : list Event :=
  (if val_truthy (arg_progress args) then [] else [ApiError no_progress_message])
  ++ match recognitionTask s with
     | Obj t => [TaskCancel (task_id t)]
     | _ => []
     end.

(** The state when the teardown is over and the type is about to be
    looked at. *)
Definition after_prologue (args : Args) (s : State) : State :=
  {| audioEngine := audioEngine s;
     request := cleared (request s);
     recognitionTask := cleared (recognitionTask s);
     speechRecognizer := speechRecognizer s;
     handlers := handlers s;
     trace := trace s ++ prologue_events args s |}.

(** Whether [audioEngine.inputNode] is there at line 251, for the engine held
    or for the one created at line 248. *)
Definition has_input_node (p : Platform) (s : State) : bool :=
  match audioEngine s with
  | Obj e => truthy (inputNode e)
  | _ => plat_input_node p
  end.

(** The engine a microphone-mode call works with: the one held, or the one
    line 248 creates. *)
Definition engine_in_use (p : Platform) (s : State) : AudioEngine :=
  match audioEngine s with
  | Obj e => e
  | _ => {| inputNode := if plat_input_node p
                         then Obj {| tapInstalled := Undefined |} else Null;
            isRunning := false |}
  end.

(** The module's own record of the tap. *)
Definition tap_of (s : State) : bool :=
  match audioEngine s with
  | Obj e => tap_flag e
  | _ => false
  end.

(** The engine after the teardown shared by the microphone handler and
    [stopRecognition]: tap flag false if it was true, not running. *)
Definition engine_stopped (e : AudioEngine) : AudioEngine :=
  {| inputNode := if tap_flag e then Obj {| tapInstalled := Obj false |}
                  else inputNode e;
     isRunning := false |}.

(** Whether the request held is a url request, on which [endAudio] cannot
    be called. *)
Definition holds_url_request (s : State) : bool :=
  match request s with
  | Obj r =>
      match req_kind r with
      | SFSpeechURLRecognitionRequest _ _ => true
      | SFSpeechAudioBufferRecognitionRequest => false
      end
  | _ => false
  end.

(** The engine after [audioEngine.stop()] alone. *)
Definition engine_halted (e : AudioEngine) : AudioEngine :=
  {| inputNode := inputNode e; isRunning := false |}.

(** The request a call builds, if it gets that far: the url request of line
    191 or the buffer request of line 256. *)
Definition requested (p : Platform) (args : Args) (s : State)
    : option Request :=
  if String.eqb (effective_type args) SOURCE_TYPE_URL then
    match arg_url args with
    | Some u =>
        if plat_url_request p (fst (resource_of u)) (snd (resource_of u))
        then Some (url_request (fst (resource_of u)) (snd (resource_of u)))
        else None
    | None => None
    end
  else if String.eqb (effective_type args) SOURCE_TYPE_MICROPHONE then
    if has_input_node p s then Some buffer_request else None
  else None.

(** The task the module tracks, as a list of at most one task id. *)
Definition tracked (s : State) : list nat :=
  match recognitionTask s with
  | Obj t => [task_id t]
  | _ => []
  end.

(** A sequence of [startRecognition] calls, each with what the platform
    answers during it. *)
Definition starts (calls : list (Platform * Args)) : list (Platform * Op) :=
  map (fun c => (fst c, OpStart (snd c))) calls.

(** The four ways [startRecognition] returns false, read off its inputs:
    lines 192-195, 251-254, 301-304 and 308-311.  (A call that raises a
    TypeError does not return.) *)
Inductive Failure : Type :=
| RequestConstruction
| MissingInputNode
| EngineStartFailed
| UnknownType.

Definition sync_failure (p : Platform) (args : Args) (s : State)
    : option Failure :=
  if String.eqb (effective_type args) SOURCE_TYPE_URL then
    match arg_url args with
    | Some u =>
        if plat_url_request p (fst (resource_of u)) (snd (resource_of u))
        then None else Some RequestConstruction
    | None => None
    end
  else if String.eqb (effective_type args) SOURCE_TYPE_MICROPHONE then
    if has_input_node p s then
      if truthy (speechRecognizer s) && negb (plat_engine_start p)
      then Some EngineStartFailed else None
    else Some MissingInputNode
  else Some UnknownType.

(** Whether a call gets as far as line 203 or line 260 with a recognizer to
    call, and so creates a task; it names the handler the task is given. *)
Definition creates (p : Platform) (args : Args) (s : State)
    : option HandlerKind :=
  if String.eqb (effective_type args) SOURCE_TYPE_URL then
    match arg_url args with
    | Some u =>
        if plat_url_request p (fst (resource_of u)) (snd (resource_of u))
        then Some UrlHandler else None
    | None => None
    end
  else if String.eqb (effective_type args) SOURCE_TYPE_MICROPHONE then
    if has_input_node p s && truthy (speechRecognizer s)
    then Some MicrophoneHandler else None
  else None.

(** The closure such a call builds. *)
Definition closure_of (args : Args) (k : HandlerKind) : Closure :=
  {| c_kind := k;
     c_instance := arg_id args;
     c_progressCallback := or_null (arg_progress args) |}.

(** How the closure of a task may change over time: only its
    [progressCallback] variable is ever assigned, and only with null. *)
Definition closure_le (c c' : Closure) : Prop :=
  c_kind c' = c_kind c /\
  c_instance c' = c_instance c /\
  (c_progressCallback c' = c_progressCallback c \/
   c_progressCallback c' = VNull).

(** Creations and cancellations of tasks, in trace order. *)
Definition is_task_event (e : Event) : bool :=
  match e with TaskCreate _ | TaskCancel _ => true | _ => false end.

Definition task_events (tr : list Event) : list Event :=
  List.filter is_task_event tr.

(** Calls on the tap, in trace order. *)
Definition is_tap_event (e : Event) : bool :=
  match e with RemoveTap | InstallTap => true | _ => false end.

Definition tap_events (tr : list Event) : list Event :=
  List.filter is_tap_event tr.

(** Calls on the audio engine, its tap, or the request's audio input. *)
Definition is_audio_event (e : Event) : bool :=
  match e with
  | EngineCreate | RemoveTap | InstallTap | EnginePrepare | EngineStart
  | EngineStop | EndAudio => true
  | _ => false
  end.

(** What [report] adds to the trace. *)
Definition report_events (t : nat) (cb : JsVal) (ev : ProgressEvent)
    : list Event :=
  if isFunction cb then [Progress t cb ev] else [].

(** The progress callbacks made, in trace order: the task whose handler made
    the call, the function called, the object passed. *)
Definition progress_of (e : Event) : option (nat * JsVal * ProgressEvent) :=
  match e with
  | Progress t cb ev => Some (t, cb, ev)
  | _ => None
  end.

Definition progress_events (tr : list Event)
    : list (nat * JsVal * ProgressEvent) :=
  omap progress_of tr.

(** A progress callback made by the handler of task [t] when its closure is
    [c]: the closure's function is called, with the closure's [instance] as
    id. *)
Definition made_by (t : nat) (c : Closure)
    (x : nat * JsVal * ProgressEvent) : Prop :=
  fst (fst x) = t /\
  snd (fst x) = c_progressCallback c /\
  isFunction (snd (fst x)) = true /\
  ev_id (snd x) = c_instance c.

(** ** Example inputs *)

(** A platform on which everything works and the task is running. *)
Definition platform_ok : Platform :=
  {| plat_locale := fun _ => true;
     plat_available := true;
     plat_url_request := fun _ _ => true;
     plat_input_node := true;
     plat_engine_start := true;
     plat_task_state := SFSpeechRecognitionTaskStateRunning |}.

(** A platform on which the audio engine does not start. *)
Definition platform_engine_fails : Platform :=
  {| plat_locale := fun _ => true;
     plat_available := true;
     plat_url_request := fun _ _ => true;
     plat_input_node := true;
     plat_engine_start := false;
     plat_task_state := SFSpeechRecognitionTaskStateRunning |}.

(** A platform that reports the tracked task as being cancelled. *)
Definition platform_canceling : Platform :=
  {| plat_locale := fun _ => true;
     plat_available := true;
     plat_url_request := fun _ _ => true;
     plat_input_node := true;
     plat_engine_start := true;
     plat_task_state := SFSpeechRecognitionTaskStateCanceling |}.

Definition url_args (i : Z) : Args :=
  {| arg_progress := VFun 0; arg_type := None; arg_id := VNum i;
     arg_url := Some "sounds/hello.mp3" |}.

Definition microphone_args (i : Z) : Args :=
  {| arg_progress := VFun 0; arg_type := None; arg_id := VNum i;
     arg_url := None |}.

Definition bogus_args : Args :=
  {| arg_progress := VFun 0; arg_type := Some "stream"; arg_id := VNum 7;
     arg_url := None |}.

(** The state after one successful url-mode call. *)
Definition url_session : State :=
  snd (startRecognition platform_ok (url_args 1) initial).

(** The state after [initialize()] and one successful microphone-mode call. *)
Definition microphone_session : State :=
  run [(platform_ok, OpInitialize None);
       (platform_ok, OpStart (microphone_args 1))] initial.

(** A partial and a final result, and calls of the handler of task 0 with
    them. *)
Definition partial_result : Result :=
  {| formattedString := "hello"; isFinal := false |}.

Definition final_result : Result :=
  {| formattedString := "hello world"; isFinal := true |}.

Definition two_results : list (Platform * Op) :=
  [(platform_ok, OpResult 0 (Obj partial_result) Null);
   (platform_ok, OpResult 0 (Obj final_result) Null)].

(** * The rest of the module *)

(** ** requestSpeechRecognizerAuthorization *)

(** The four [Speech.SFSpeechRecognizerAuthorizationStatus...] constants the
    switch of lines 72-98 compares with; their values belong to the platform
    and are taken as given. *)
Record AuthorizationStatuses : Type := {
  SFSpeechRecognizerAuthorizationStatusAuthorized : Z;
  SFSpeechRecognizerAuthorizationStatusDenied : Z;
  SFSpeechRecognizerAuthorizationStatusRestricted : Z;
  SFSpeechRecognizerAuthorizationStatusNotDetermined : Z
}.

(** The object passed to the caller's callback (lines 100-104). *)
Record SpeechPermission : Type := {
  sp_success : bool;
  sp_message : string;
  sp_status : Z
}.

(** The function given to [SFSpeechRecognizer.requestAuthorization] (lines
    68-105), as the argument it calls [callback] with: the cases of the
    switch are tried in order with [===]. *)
Definition speech_authorization (k : AuthorizationStatuses) (status : Z)
    : SpeechPermission :=
  if (status =? SFSpeechRecognizerAuthorizationStatusAuthorized k)%Z then
    {| sp_success := true;
       sp_message := "User gave access to speech recognition";
       sp_status := status |}
  else if (status =? SFSpeechRecognizerAuthorizationStatusDenied k)%Z then
    {| sp_success := false;
       sp_message := "User denied access to speech recognition";
       sp_status := status |}
  else if (status =? SFSpeechRecognizerAuthorizationStatusRestricted k)%Z then
    {| sp_success := false;
       sp_message := "Speech recognition restricted on this device";
       sp_status := status |}
  else if (status =? SFSpeechRecognizerAuthorizationStatusNotDetermined k)%Z
  then
    {| sp_success := false;
       sp_message := "Speech recognition not yet authorized";
       sp_status := status |}
  else
    {| sp_success := false;
       sp_message :=
         "Something has gone wrong requesting Speech Recognition authorization";
       sp_status := status |}.

(** [requestSpeechRecognizerAuthorization(callback)]: the calls of
    [callback], one for each status the platform delivers. *)
Definition requestSpeechRecognizerAuthorization (k : AuthorizationStatuses)
    (delivered : list Z) : list SpeechPermission :=
  map (speech_authorization k) delivered.

(** ** requestMicrophoneAuthorization *)

(** The object passed to the caller's callback (lines 117-120): [mic.success]
    as it came, and a message chosen by its truthiness. *)
Record MicrophonePermission : Type := {
  mp_success : JsVal;
  mp_message : string
}.

Definition microphone_authorization (mic_success : JsVal)
    : MicrophonePermission :=
  {| mp_success := mic_success;
     mp_message :=
       if val_truthy mic_success
       then "Recording permission has been granted."
       else "Recording permission has been denied." |}.

Definition requestMicrophoneAuthorization (delivered : list JsVal)
    : list MicrophonePermission :=
  map microphone_authorization delivered.

(** ** More vocabulary *)

(** The platform's tap on bus 0, followed along a trace: whether a tap is
    present, and whether some [installTapOnBus...] was called while one was
    present. *)
Definition tap_step (st : bool * bool) (e : Event) : bool * bool :=
  match e with
  | InstallTap => (true, snd st || fst st)
  | RemoveTap => (false, snd st)
  | _ => st
  end.

Definition tap_machine (tr : list Event) : bool * bool :=
  fold_left tap_step tr (false, false).

(** How many engines were created. *)
Definition is_engine_create (e : Event) : bool :=
  match e with EngineCreate => true | _ => false end.

Definition engines_created (tr : list Event) : nat :=
  length (List.filter is_engine_create tr).

(** The handler that goes with a request. *)
Definition handler_for (r : Request) : HandlerKind :=
  match req_kind r with
  | SFSpeechURLRecognitionRequest _ _ => UrlHandler
  | SFSpeechAudioBufferRecognitionRequest => MicrophoneHandler
  end.

(** What holds of the module variables together, whatever was called: a held
    request reports partial results; a tracked task comes with its request
    held and its handler registered. *)
Definition session_consistent (s : State) : Prop :=
  (forall r, request s = Obj r -> shouldReportPartialResults r = true) /\
  (forall t, recognitionTask s = Obj t ->
     request s = Obj (task_request t) /\
     exists c, handlers s !! task_id t = Some c /\
               c_kind c = handler_for (task_request t)).

(** The variables of the module, without the handler table and the trace. *)
Definition variables (s : State)
    : Ref AudioEngine * Ref Request * Ref Task * Ref Recognizer :=
  (audioEngine s, request s, recognitionTask s, speechRecognizer s).

(** Whether a string has a dot in it. *)
Fixpoint has_dot (s : string) : bool :=
  match s with
  | EmptyString => false
  | String c r => Ascii.eqb c "."%char || has_dot r
  end.

(** An unsupported locale, on a platform that knows none. *)
Definition platform_no_locale : Platform :=
  {| plat_locale := fun _ => false;
     plat_available := true;
     plat_url_request := fun _ _ => true;
     plat_input_node := true;
     plat_engine_start := true;
     plat_task_state := SFSpeechRecognitionTaskStateRunning |}.

(** Arguments with a callback that is not a function. *)
Definition deaf_args : Args :=
  {| arg_progress := VStr "notify"; arg_type := None; arg_id := VNum 9;
     arg_url := Some "sounds/hello.mp3" |}.

(** One numbering of the platform's constants, for the concrete lemmas. *)
Definition apple_statuses : AuthorizationStatuses :=
  {| SFSpeechRecognizerAuthorizationStatusAuthorized := 3;
     SFSpeechRecognizerAuthorizationStatusDenied := 1;
     SFSpeechRecognizerAuthorizationStatusRestricted := 2;
     SFSpeechRecognizerAuthorizationStatusNotDetermined := 0 |}.

(** * Properties *)

Ltac js_unfold :=
  unfold teardown, initialize, recognitionTaskWithRequestResultHandler,
    request_endAudio, report, bind, ret, gets, modify, emit, when, throw in *.

Ltac trace_eq := cbn; rewrite <- ?app_assoc, ?app_nil_r; cbn; reflexivity.

(** ** Equations for [startRecognition] *)

Lemma or_null_truthy (v : JsVal) : val_truthy (or_null v) = val_truthy v.
Proof.
  unfold or_null. destruct (val_truthy v) eqn:E; [exact E | reflexivity].
Qed.

(** The call is its prologue followed by the branch for its type. *)
Lemma startRecognition_eq (p : Platform) (args : Args) (s : State) :
  startRecognition p args s =
    (if String.eqb (effective_type args) SOURCE_TYPE_URL then
       startRecognition_url p args (or_null (arg_progress args)) (arg_id args)
     else if String.eqb (effective_type args) SOURCE_TYPE_MICROPHONE then
       startRecognition_microphone p (or_null (arg_progress args))
         (arg_id args)
     else
       (emit (ConsoleError ("Unhandled type supplied:"
                            +:+ effective_type args)) ;;
        ret false))
      (after_prologue args s).
Proof.
  unfold startRecognition, after_prologue, prologue_events, cleared;
    cbv zeta.
  rewrite or_null_truthy.
  destruct s as [eng req task sr hs tr]; js_unfold; cbn.
  destruct (val_truthy (arg_progress args)), task, req; cbn;
    rewrite <- ?app_assoc, ?app_nil_r; reflexivity.
Qed.

Lemma startRecognition_url_eq (p : Platform) (args : Args)
    (cb inst : JsVal) (s : State) :
  startRecognition_url p args cb inst s =
    match arg_url args with
    | None => (TypeError "args.url.split", s)
    | Some u =>
        let name := fst (resource_of u) in
        let ext := snd (resource_of u) in
        if plat_url_request p name ext then
          (Normal true,
           {| audioEngine := audioEngine s;
              request := Obj (url_request name ext);
              recognitionTask :=
                Obj {| task_id := length (handlers s);
                       task_request := url_request name ext |};
              speechRecognizer :=
                if truthy (speechRecognizer s) then speechRecognizer s
                else Obj DefaultRecognizer;
              handlers :=
                handlers s ++ [{| c_kind := UrlHandler; c_instance := inst;
                                  c_progressCallback := cb |}];
              trace :=
                trace s
                ++ (if truthy (speechRecognizer s) then []
                    else [RecognizerInit None])
                ++ [TaskCreate (length (handlers s))] |})
        else
          (Normal false,
           {| audioEngine := audioEngine s;
              request := Null;
              recognitionTask := recognitionTask s;
              speechRecognizer := speechRecognizer s;
              handlers := handlers s;
              trace :=
                trace s
                ++ [ConsoleError
                      "Unable to created a SFSpeechURLRecognitionRequest object"]
           |})
    end.
Proof.
  unfold startRecognition_url.
  destruct (arg_url args) as [u|]; [ | reflexivity ].
  destruct (resource_of u) as [name ext]; cbn [fst snd]; cbv zeta.
  destruct s as [eng req task sr hs tr]; js_unfold; cbn.
  destruct (plat_url_request p name ext); [ | reflexivity ].
  destruct sr; trace_eq.
Qed.

Lemma startRecognition_microphone_eq (p : Platform) (cb inst : JsVal)
    (s : State) :
  startRecognition_microphone p cb inst s =
    let e0 := engine_in_use p s in
    let created := if truthy (audioEngine s) then [] else [EngineCreate] in
    if truthy (inputNode e0) then
      if truthy (speechRecognizer s) then
        (Normal (plat_engine_start p),
         {| audioEngine :=
              Obj {| inputNode := Obj {| tapInstalled := Obj true |};
                     isRunning := plat_engine_start p || isRunning e0 |};
            request := Obj buffer_request;
            recognitionTask :=
              Obj {| task_id := length (handlers s);
                     task_request := buffer_request |};
            speechRecognizer := speechRecognizer s;
            handlers :=
              handlers s ++ [{| c_kind := MicrophoneHandler;
                                c_instance := inst;
                                c_progressCallback := cb |}];
            trace :=
              trace s ++ created
              ++ [TaskCreate (length (handlers s)); RemoveTap; InstallTap;
                  EnginePrepare; EngineStart] |})
      else
        (TypeError "speechRecognizer.recognitionTaskWithRequestResultHandler",
         {| audioEngine := Obj e0;
            request := Obj buffer_request;
            recognitionTask := recognitionTask s;
            speechRecognizer := speechRecognizer s;
            handlers := handlers s;
            trace := trace s ++ created |})
    else
      (Normal false,
       {| audioEngine := Obj e0;
          request := request s;
          recognitionTask := recognitionTask s;
          speechRecognizer := speechRecognizer s;
          handlers := handlers s;
          trace :=
            trace s ++ created
            ++ [ConsoleError "Audio engine has no input node"] |}).
Proof.
  unfold startRecognition_microphone, engine_in_use; cbv zeta.
  destruct s as [eng req task sr hs tr]; js_unfold; cbn.
  destruct eng as [| |[[| |node] running]]; cbn;
    try destruct (plat_input_node p); cbn; try trace_eq;
    destruct sr; cbn; try trace_eq;
    destruct (plat_engine_start p); trace_eq.
Qed.

Lemma input_node_in_use (p : Platform) (s : State) :
  truthy (inputNode (engine_in_use p s)) = has_input_node p s.
Proof.
  unfold engine_in_use, has_input_node.
  destruct (audioEngine s); cbn; try reflexivity;
    destruct (plat_input_node p); reflexivity.
Qed.

Lemma tap_without_input_node (p : Platform) (s : State) :
  has_input_node p s = false -> tap_flag (engine_in_use p s) = tap_of s.
Proof.
  unfold has_input_node, engine_in_use, tap_of, tap_flag.
  destruct (audioEngine s) as [| |[node running]]; cbn.
  - intros ->. reflexivity.
  - intros ->. reflexivity.
  - destruct node; intros H; (reflexivity || discriminate).
Qed.


(** ** Equations for the other operations *)

Lemma initialize_eq (p : Platform) (locale : option string) (s : State) :
  initialize p locale s =
    (Normal tt,
     {| audioEngine := audioEngine s;
        request := request s;
        recognitionTask := recognitionTask s;
        speechRecognizer :=
          if str_truthy locale then
            if plat_locale p (default "" locale)
            then Obj (LocaleRecognizer (default "" locale)) else Null
          else Obj DefaultRecognizer;
        handlers := handlers s;
        trace := trace s
                 ++ [RecognizerInit (if str_truthy locale
                                     then Some (default "" locale)
                                     else None)] |}).
Proof.
  unfold initialize; js_unfold.
  destruct s as [eng req task sr hs tr]; cbn.
  destruct sr, (str_truthy locale); reflexivity.
Qed.

Lemma url_handler_eq (p : Platform) (t : nat) (c : Closure)
    (result : Ref Result) (error : Ref nat) (s : State) :
  url_handler p t c result error s =
    (Normal tt,
     if truthy (recognitionTask s) then
       if is_canceling (plat_task_state p) then
         {| audioEngine := audioEngine s;
            request := Null;
            recognitionTask := Null;
            speechRecognizer := speechRecognizer s;
            handlers := handlers (clear_progressCallback t s);
            trace :=
              trace s
              ++ ConsoleInfo "The speech recognition task has been cancelled."
                 :: report_events t (c_progressCallback c)
                      {| ev_id := c_instance c;
                         ev_error := error;
                         ev_value := and_then result formattedString;
                         ev_state := Obj (plat_task_state p);
                         ev_finished := Obj true |} |}
       else
         let done := truthy error || is_true (and_then result isFinal) in
         {| audioEngine := audioEngine s;
            request := if done then Null else request s;
            recognitionTask := if done then Null else recognitionTask s;
            speechRecognizer := speechRecognizer s;
            handlers := handlers s;
            trace :=
              trace s
              ++ report_events t (c_progressCallback c)
                   {| ev_id := c_instance c;
                      ev_error := error;
                      ev_value := and_then result formattedString;
                      ev_state := Obj (plat_task_state p);
                      ev_finished := and_then result isFinal |} |}
     else s).
Proof.
  unfold url_handler, clear_progressCallback, report_events; js_unfold.
  destruct s as [eng req task sr hs tr]; cbn.
  destruct task; cbn; try reflexivity.
  destruct (is_canceling (plat_task_state p)),
    (isFunction (c_progressCallback c)),
    (truthy error || is_true (and_then result isFinal));
    cbn; try destruct (hs !! t); cbn;
    rewrite <- ?app_assoc, ?app_nil_r; reflexivity.
Qed.

(** The microphone handler: the report, then on an error or a final result
    the engine is torn down, and the [endAudio] call either is recorded and
    the task forgotten, or (url request held) raises and leaves the task. *)
Lemma microphone_handler_eq (p : Platform) (t : nat) (c : Closure)
    (result : Ref Result) (error : Ref nat) (s : State) :
  microphone_handler p t c result error s =
    let done := truthy error || is_true (and_then result isFinal) in
    (if done && holds_url_request s
     then TypeError "request.endAudio" else Normal tt,
     {| audioEngine :=
          if done then and_then (audioEngine s) engine_stopped
          else audioEngine s;
        request := request s;
        recognitionTask :=
          if done && negb (holds_url_request s) then Null
          else recognitionTask s;
        speechRecognizer := speechRecognizer s;
        handlers := handlers s;
        trace :=
          trace s
          ++ report_events t (c_progressCallback c)
               {| ev_id := c_instance c;
                  ev_error := error;
                  ev_value := and_then result formattedString;
                  ev_state := and_then (recognitionTask s)
                                (fun _ => plat_task_state p);
                  ev_finished := and_then result isFinal |}
          ++ (if done then
                match audioEngine s with
                | Obj e => (if tap_flag e then [RemoveTap] else [])
                           ++ (if isRunning e then [EngineStop] else [])
                | _ => []
                end
                ++ (if truthy (request s) && negb (holds_url_request s)
                    then [EndAudio] else [])
              else []) |}).
Proof.
  unfold microphone_handler, report_events, engine_stopped,
    holds_url_request; js_unfold.
  destruct s as [eng req task sr hs tr]; cbn.
  destruct (isFunction (c_progressCallback c)),
    (truthy error || is_true (and_then result isFinal)),
    eng as [| |[[| |[[| |[|]]]] [|]]], req as [| |[[name ext|] partial]]; cbn;
    rewrite <- ?app_assoc, ?app_nil_r; reflexivity.
Qed.

(** [stopRecognition]: with an engine, the engine is stopped, and the
    [endAudio] call either is recorded and the tap removal follows, or (url
    request held) raises before the tap is looked at; without an engine the
    tracked task is cancelled. *)
Lemma stopRecognition_eq (s : State) :
  stopRecognition s =
    (if truthy (audioEngine s) && holds_url_request s
     then TypeError "request.endAudio" else Normal tt,
     {| audioEngine :=
          and_then (audioEngine s)
            (if holds_url_request s then engine_halted else engine_stopped);
        request := request s;
        recognitionTask := recognitionTask s;
        speechRecognizer := speechRecognizer s;
        handlers := handlers s;
        trace :=
          trace s
          ++ match audioEngine s with
             | Obj e =>
                 (if isRunning e then [EngineStop] else [])
                 ++ (if holds_url_request s then []
                     else (if truthy (request s) then [EndAudio] else [])
                          ++ (if tap_flag e then [RemoveTap] else []))
             | _ =>
                 match recognitionTask s with
                 | Obj t => [TaskCancel (task_id t)]
                 | _ => []
                 end
             end |}).
Proof.
  unfold stopRecognition, engine_stopped, engine_halted, holds_url_request;
    js_unfold.
  destruct s as [eng req task sr hs tr]; cbn.
  destruct eng as [| |[[| |[[| |[|]]]] [|]]],
    req as [| |[[name ext|] partial]], task; cbn;
    rewrite <- ?app_assoc, ?app_nil_r; reflexivity.
Qed.

Lemma result_handler_eq (p : Platform) (t : nat)
    (result : Ref Result) (error : Ref nat) (s : State) :
  result_handler p t result error s =
    match handlers s !! t with
    | Some c =>
        match c_kind c with
        | UrlHandler => url_handler p t c result error s
        | MicrophoneHandler => microphone_handler p t c result error s
        end
    | None => (Normal tt, s)
    end.
Proof.
  unfold result_handler; js_unfold.
  destruct (handlers s !! t) as [c|]; [destruct (c_kind c)|]; reflexivity.
Qed.

Lemma tap_flag_in_use (p : Platform) (s : State) :
  tap_flag (engine_in_use p s) = tap_of s.
Proof.
  unfold engine_in_use, tap_of, tap_flag.
  destruct (audioEngine s); cbn; try reflexivity;
    destruct (plat_input_node p); reflexivity.
Qed.

Lemma truthy_and_then {A B} (r : Ref A) (f : A -> B) :
  truthy (and_then r f) = truthy r.
Proof. destruct r; reflexivity. Qed.

Ltac prologue_fields args s :=
  change (engine_in_use ?p (after_prologue args s))
    with (engine_in_use p s) in *;
  change (speechRecognizer (after_prologue args s))
    with (speechRecognizer s) in *;
  change (audioEngine (after_prologue args s)) with (audioEngine s) in *;
  change (handlers (after_prologue args s)) with (handlers s) in *;
  change (trace (after_prologue args s))
    with (trace s ++ prologue_events args s) in *.

(** ** isAvailable *)

(** C8.  Before any [initialize] the recognizer variable is still undefined,
    and [speechRecognizer && speechRecognizer.isAvailable()] evaluates to
    that undefined value: nothing is thrown, but the value returned is not
    the boolean false that the function's documentation announces. *)
Theorem isAvailable_before_initialize_is_undefined :
  forall p : Platform,
    isAvailable p initial = Undefined /\
    isAvailable p initial <> Obj false /\
    is_true (isAvailable p initial) = false.
Proof.
  intros p. unfold isAvailable; cbn. repeat split. discriminate.
Qed.

(** With a recognizer held, the platform's answer is returned as it is. *)
Lemma isAvailable_with_recognizer (p : Platform) (s : State) (r : Recognizer) :
  speechRecognizer s = Obj r -> isAvailable p s = Obj (plat_available p).
Proof. intros H. unfold isAvailable. rewrite H. reflexivity. Qed.

(** ** stopRecognition *)

(** What [stopRecognition] does when the request held is not a url request
    (a buffer request, or none).  With an audio engine it stops the engine
    when running, ends the request's audio when a request is held, removes
    the tap when [tapInstalled] is true (and then sets it to false); the task
    and the request variables are not touched.  Without an engine but with a
    task it cancels the task and changes nothing else.  With neither it
    returns normally and leaves the state as it was. *)
Lemma stopRecognition_without_url_request :
  forall s : State,
    holds_url_request s = false \/ truthy (audioEngine s) = false ->
    match audioEngine s with
    | Obj e =>
        exists s',
          stopRecognition s = (Normal tt, s') /\
          trace s' = trace s
                     ++ (if isRunning e then [EngineStop] else [])
                     ++ (if truthy (request s) then [EndAudio] else [])
                     ++ (if tap_flag e then [RemoveTap] else []) /\
          audioEngine s' = Obj (engine_stopped e) /\
          request s' = request s /\
          recognitionTask s' = recognitionTask s /\
          speechRecognizer s' = speechRecognizer s /\
          handlers s' = handlers s
    | _ =>
        match recognitionTask s with
        | Obj t =>
            stopRecognition s =
              (Normal tt, set_trace (trace s ++ [TaskCancel (task_id t)]) s)
        | _ => stopRecognition s = (Normal tt, s)
        end
    end.
Proof.
  intros [eng req task sr hs tr]; cbn.
  destruct eng as [| |[node running]]; cbn.
  - intros _. destruct task; reflexivity.
  - intros _. destruct task; reflexivity.
  - intros [Hu|Hu]; [ | discriminate ].
    unfold stopRecognition, engine_stopped; js_unfold; cbn.
    unfold holds_url_request in Hu; cbn in Hu.
    destruct running, req as [| |[[name ext|] partial]],
      node as [| |[[| |[|]]]]; cbn; try discriminate;
      eexists; repeat split; trace_eq.
Qed.

(** C7.  With an audio engine held and a url request in [request] (a url
    session started after a microphone session), [stopRecognition] stops the
    engine and then calls [endAudio] on the url request, which has no such
    method: it raises a TypeError.  The tap, whose flag is true, is not
    removed, and the url task is not cancelled. *)
Theorem stopRecognition_raises_on_url_request :
  truthy (audioEngine
            (run [(platform_ok, OpStart (url_args 2))] microphone_session))
    = true /\
  request (run [(platform_ok, OpStart (url_args 2))] microphone_session)
    = Obj (url_request "sounds/hello" "mp3") /\
  tap_of (run [(platform_ok, OpStart (url_args 2))] microphone_session)
    = true /\
  fst (stopRecognition
         (run [(platform_ok, OpStart (url_args 2))] microphone_session))
    = TypeError "request.endAudio" /\
  trace (snd (stopRecognition
                (run [(platform_ok, OpStart (url_args 2))]
                   microphone_session)))
    = trace (run [(platform_ok, OpStart (url_args 2))] microphone_session)
      ++ [EngineStop] /\
  tap_of (snd (stopRecognition
                 (run [(platform_ok, OpStart (url_args 2))]
                    microphone_session)))
    = true /\
  live (trace (snd (stopRecognition
                      (run [(platform_ok, OpStart (url_args 2))]
                         microphone_session))))
    = [1].
Proof. vm_compute. repeat split. Qed.

(** ** startRecognition: unknown types and the other synchronous failures *)

(** C2, as the code has it.  A call whose type is neither url nor microphone
    logs the error and returns false; the audio engine, the recognizer and
    the registered handlers are unchanged, but the teardown of lines 174-183
    has already run: a tracked task was cancelled and the task and request
    variables, when they held objects, are null.  (When neither held an
    object they are unchanged.) *)
Theorem startRecognition_unknown_type :
  forall (p : Platform) (args : Args) (s : State),
    effective_type args <> SOURCE_TYPE_URL ->
    effective_type args <> SOURCE_TYPE_MICROPHONE ->
    startRecognition p args s =
      (Normal false,
       {| audioEngine := audioEngine s;
          request := cleared (request s);
          recognitionTask := cleared (recognitionTask s);
          speechRecognizer := speechRecognizer s;
          handlers := handlers s;
          trace := trace s ++ prologue_events args s
                   ++ [ConsoleError ("Unhandled type supplied:"
                                     +:+ effective_type args)] |}).
Proof.
  intros p args s Hu Hm.
  apply String.eqb_neq in Hu, Hm.
  rewrite startRecognition_eq, Hu, Hm.
  unfold after_prologue; js_unfold; cbn.
  rewrite <- app_assoc. reflexivity.
Qed.

Lemma startRecognition_unknown_type_witness :
  effective_type bogus_args <> SOURCE_TYPE_URL /\
  effective_type bogus_args <> SOURCE_TYPE_MICROPHONE /\
  startRecognition platform_ok bogus_args initial =
    (Normal false,
     {| audioEngine := Undefined; request := Undefined;
        recognitionTask := Undefined; speechRecognizer := Undefined;
        handlers := [];
        trace := [ConsoleError "Unhandled type supplied:stream"] |}).
Proof.
  split; [ | split ].
  - vm_compute; discriminate.
  - vm_compute; discriminate.
  - apply (startRecognition_unknown_type platform_ok bogus_args initial);
      vm_compute; discriminate.
Defined.

(** C2, counterexample to the claim as stated: with a task and a request
    tracked, a call of unknown type returns false but cancels the task and
    nulls both variables. *)
Lemma unknown_type_tears_down_session :
  effective_type bogus_args = "stream" /\
  truthy (recognitionTask url_session) = true /\
  truthy (request url_session) = true /\
  fst (startRecognition platform_ok bogus_args url_session) = Normal false /\
  recognitionTask (snd (startRecognition platform_ok bogus_args url_session))
    = Null /\
  request (snd (startRecognition platform_ok bogus_args url_session)) = Null /\
  recognitionTask (snd (startRecognition platform_ok bogus_args url_session))
    <> recognitionTask url_session /\
  trace (snd (startRecognition platform_ok bogus_args url_session))
    = trace url_session
      ++ [TaskCancel 0; ConsoleError "Unhandled type supplied:stream"].
Proof.
  vm_compute. repeat split. discriminate.
Qed.

(** C6, as the code has it.  [startRecognition] returns false exactly on its
    four synchronous failures.  After a failed request construction, a
    missing input node or an unknown type, no task and no request is tracked,
    no handler was registered, and the module's record of the tap is what it
    was before the call.  After a failed engine start the task, the request
    and the tap that the call created are all still in place. *)
Theorem startRecognition_failures :
  forall (p : Platform) (args : Args) (s : State),
    let r := startRecognition p args s in
    match sync_failure p args s with
    | Some EngineStartFailed =>
        fst r = Normal false /\
        recognitionTask (snd r) =
          Obj {| task_id := length (handlers s);
                 task_request := buffer_request |} /\
        request (snd r) = Obj buffer_request /\
        tap_of (snd r) = true
    | Some _ =>
        fst r = Normal false /\
        truthy (recognitionTask (snd r)) = false /\
        truthy (request (snd r)) = false /\
        tap_of (snd r) = tap_of s /\
        handlers (snd r) = handlers s
    | None => fst r <> Normal false
    end.
Proof.
  intros p args s; cbv zeta.
  rewrite startRecognition_eq. unfold sync_failure.
  destruct (String.eqb (effective_type args) SOURCE_TYPE_URL).
  - rewrite startRecognition_url_eq.
    destruct (arg_url args) as [u|]; [ | discriminate ].
    cbv zeta.
    destruct (plat_url_request p _ _); [ discriminate | ].
    cbn. destruct (recognitionTask s); repeat split.
  - destruct (String.eqb (effective_type args) SOURCE_TYPE_MICROPHONE).
    + rewrite startRecognition_microphone_eq; cbv zeta.
      change (engine_in_use p (after_prologue args s))
        with (engine_in_use p s).
      change (speechRecognizer (after_prologue args s))
        with (speechRecognizer s).
      rewrite input_node_in_use.
      destruct (has_input_node p s) eqn:Hn; cbn [andb].
      * destruct (truthy (speechRecognizer s)), (plat_engine_start p); cbn;
          repeat split; discriminate.
      * cbn. unfold tap_of at 1; cbn.
        rewrite (tap_without_input_node p s Hn).
        destruct (recognitionTask s), (request s); repeat split.
    + js_unfold; cbn.
      destruct (recognitionTask s), (request s); repeat split.
Qed.

(** C6, counterexample to the claim as stated: when the engine does not
    start, the call returns false and leaves a tracked task, a request and an
    installed tap behind. *)
Lemma failed_engine_start_leaves_session :
  fst (startRecognition platform_engine_fails (microphone_args 1)
         (snd (initialize platform_ok None initial))) = Normal false /\
  truthy (recognitionTask
            (snd (startRecognition platform_engine_fails (microphone_args 1)
                    (snd (initialize platform_ok None initial))))) = true /\
  truthy (request
            (snd (startRecognition platform_engine_fails (microphone_args 1)
                    (snd (initialize platform_ok None initial))))) = true /\
  tap_of (snd (startRecognition platform_engine_fails (microphone_args 1)
                 (snd (initialize platform_ok None initial)))) = true /\
  live (trace (snd (startRecognition platform_engine_fails (microphone_args 1)
                      (snd (initialize platform_ok None initial))))) = [0].
Proof. vm_compute. repeat split. Qed.

(** A tap installed by an earlier microphone session also survives a later
    failing call: nothing on the failure paths removes it. *)
Lemma unknown_type_keeps_installed_tap :
  tap_of microphone_session = true /\
  fst (startRecognition platform_ok bogus_args microphone_session)
    = Normal false /\
  tap_of (snd (startRecognition platform_ok bogus_args microphone_session))
    = true.
Proof. vm_compute. repeat split. Qed.

(** ** The recognizer in the two modes *)

(** C10.  Without a recognizer, a microphone-mode call never initializes
    one and never succeeds: when the engine has an input node it gets as far
    as creating the task and raises a TypeError on the absent recognizer
    (otherwise it has already returned false); no task is tracked, no handler
    registered, and the recognizer variable is as before.  A url-mode call
    whose request could be built calls [initialize()] with no locale instead,
    and succeeds with the default recognizer. *)
Theorem lazy_initialize_only_in_url_mode :
  forall (p : Platform) (args : Args) (s : State),
    truthy (speechRecognizer s) = false ->
    (effective_type args = SOURCE_TYPE_MICROPHONE ->
     let r := startRecognition p args s in
     fst r =
       (if has_input_node p s
        then TypeError
               "speechRecognizer.recognitionTaskWithRequestResultHandler"
        else Normal false) /\
     speechRecognizer (snd r) = speechRecognizer s /\
     truthy (recognitionTask (snd r)) = false /\
     handlers (snd r) = handlers s /\
     trace (snd r) =
       trace s ++ prologue_events args s
       ++ (if truthy (audioEngine s) then [] else [EngineCreate])
       ++ (if has_input_node p s then []
           else [ConsoleError "Audio engine has no input node"]))
    /\
    (effective_type args = SOURCE_TYPE_URL ->
     forall u,
       arg_url args = Some u ->
       plat_url_request p (fst (resource_of u)) (snd (resource_of u)) = true ->
       exists s',
         startRecognition p args s = (Normal true, s') /\
         speechRecognizer s' = Obj DefaultRecognizer /\
         trace s' = trace s ++ prologue_events args s
                    ++ [RecognizerInit None;
                        TaskCreate (length (handlers s))]).
Proof.
  intros p args s Hsr; split.
  - intros Ht; cbv zeta.
    rewrite startRecognition_eq, Ht.
    change (String.eqb SOURCE_TYPE_MICROPHONE SOURCE_TYPE_URL) with false.
    change (String.eqb SOURCE_TYPE_MICROPHONE SOURCE_TYPE_MICROPHONE)
      with true.
    cbv iota. rewrite startRecognition_microphone_eq; cbv zeta.
    change (engine_in_use p (after_prologue args s))
      with (engine_in_use p s).
    change (speechRecognizer (after_prologue args s))
      with (speechRecognizer s).
    rewrite input_node_in_use, Hsr.
    destruct (has_input_node p s); cbn;
      destruct (recognitionTask s); cbn; repeat split;
      rewrite <- ?app_assoc, ?app_nil_r; reflexivity.
  - intros Ht u Hu Hreq.
    rewrite startRecognition_eq, Ht.
    change (String.eqb SOURCE_TYPE_URL SOURCE_TYPE_URL) with true.
    cbv iota. rewrite startRecognition_url_eq, Hu; cbv zeta.
    rewrite Hreq. cbn. rewrite Hsr.
    eexists; (split; [reflexivity|]); cbn.
    split; [reflexivity|]. rewrite <- app_assoc. reflexivity.
Qed.

Lemma lazy_initialize_only_in_url_mode_witness :
  truthy (speechRecognizer initial) = false /\
  fst (startRecognition platform_ok (microphone_args 1) initial)
    = TypeError "speechRecognizer.recognitionTaskWithRequestResultHandler" /\
  truthy (recognitionTask
            (snd (startRecognition platform_ok (microphone_args 1) initial)))
    = false /\
  (exists s',
     startRecognition platform_ok (url_args 1) initial = (Normal true, s') /\
     speechRecognizer s' = Obj DefaultRecognizer).
Proof.
  destruct (lazy_initialize_only_in_url_mode
              platform_ok (microphone_args 1) initial eq_refl) as [Hm _].
  destruct (lazy_initialize_only_in_url_mode
              platform_ok (url_args 1) initial eq_refl) as [_ Hu].
  split; [reflexivity | ].
  destruct (Hm eq_refl) as (H1 & _ & H3 & _).
  split; [exact H1 | split; [exact H3 | ] ].
  destruct (Hu eq_refl "sounds/hello.mp3" eq_refl eq_refl)
    as (s' & H1' & H2' & _).
  exists s'; split; assumption.
Defined.

(** With a recognizer held, neither mode touches the recognizer variable. *)
Lemma startRecognition_keeps_recognizer (p : Platform) (args : Args)
    (s : State) :
  truthy (speechRecognizer s) = true ->
  speechRecognizer (snd (startRecognition p args s)) = speechRecognizer s.
Proof.
  intros Hsr. rewrite startRecognition_eq.
  destruct (String.eqb (effective_type args) SOURCE_TYPE_URL).
  - rewrite startRecognition_url_eq.
    destruct (arg_url args) as [u|]; [ | reflexivity ]. cbv zeta.
    destruct (plat_url_request p _ _); cbn; [ | reflexivity ].
    rewrite Hsr. reflexivity.
  - destruct (String.eqb (effective_type args) SOURCE_TYPE_MICROPHONE).
    + rewrite startRecognition_microphone_eq; cbv zeta. cbn. rewrite Hsr.
      destruct (truthy (inputNode (engine_in_use p (after_prologue args s))));
        reflexivity.
    + reflexivity.
Qed.

(** ** The input tap *)

(** In microphone mode, once the recognizer and the input node are there,
    [startRecognition] calls [removeTapOnBus] whatever [tapInstalled] says
    (lines 288-291 test the input node only). *)
Lemma startRecognition_microphone_trace :
  forall (p : Platform) (args : Args) (s : State),
    effective_type args = SOURCE_TYPE_MICROPHONE ->
    has_input_node p s = true ->
    truthy (speechRecognizer s) = true ->
    trace (snd (startRecognition p args s)) =
      trace s ++ prologue_events args s
      ++ (if truthy (audioEngine s) then [] else [EngineCreate])
      ++ [TaskCreate (length (handlers s)); RemoveTap; InstallTap;
          EnginePrepare; EngineStart].
Proof.
  intros p args s Ht Hn Hsr.
  rewrite startRecognition_eq, Ht.
  change (String.eqb SOURCE_TYPE_MICROPHONE SOURCE_TYPE_URL) with false.
  change (String.eqb SOURCE_TYPE_MICROPHONE SOURCE_TYPE_MICROPHONE) with true.
  cbv iota. rewrite startRecognition_microphone_eq; cbv zeta.
  unfold has_input_node in Hn. unfold engine_in_use. cbn.
  destruct (audioEngine s) as [| |e]; cbn; rewrite Hn, Hsr; cbn;
    rewrite <- ?app_assoc; reflexivity.
Qed.

(** The removal in [stopRecognition] is guarded: it happens exactly when the
    flag is true and the [endAudio] call before it did not raise, and the
    flag is false afterwards. *)
Lemma stopRecognition_tap_guarded :
  forall s : State,
    tap_events (trace (snd (stopRecognition s)))
      = tap_events (trace s)
        ++ (if tap_of s && negb (holds_url_request s)
            then [RemoveTap] else []) /\
    tap_of (snd (stopRecognition s)) = tap_of s && holds_url_request s.
Proof.
  intros s. rewrite stopRecognition_eq; cbn [snd trace].
  unfold tap_events, tap_of, engine_stopped, engine_halted, tap_flag.
  rewrite List.filter_app; cbn.
  destruct (audioEngine s) as [| |[[| |[[| |[|]]]] [|]]],
    (holds_url_request s), (truthy (request s)), (recognitionTask s); cbn;
    rewrite ?app_nil_r; split; reflexivity.
Qed.

(** So is the removal in the microphone handler. *)
Lemma microphone_handler_tap_guarded :
  forall (p : Platform) (t : nat) (c : Closure)
         (result : Ref Result) (error : Ref nat) (s : State),
    let s' := snd (microphone_handler p t c result error s) in
    tap_events (trace s')
      = tap_events (trace s)
        ++ (if (truthy error || is_true (and_then result isFinal))
               && tap_of s
            then [RemoveTap] else []) /\
    (tap_of s' = true -> tap_of s = true).
Proof.
  intros p t c result error s; cbv zeta.
  rewrite microphone_handler_eq; cbv zeta; cbn [snd trace].
  unfold tap_events, tap_of, engine_stopped, tap_flag, report_events.
  rewrite !List.filter_app; cbn.
  destruct (isFunction (c_progressCallback c)),
    (truthy error || is_true (and_then result isFinal)),
    (audioEngine s) as [| |[[| |[[| |[|]]]] [|]]],
    (holds_url_request s), (truthy (request s)); cbn;
    rewrite ?app_nil_r; split; (reflexivity || discriminate || auto).
Qed.

(** C3.  The removal before installing a new tap is not guarded by
    [tapInstalled].  The first microphone call removes a tap although the
    flag was never set; and [stopRecognition] followed by a microphone call
    removes the tap twice in a row, the second time with the flag false. *)
Theorem startRecognition_removes_tap_unguarded :
  tap_of (snd (initialize platform_ok None initial)) = false /\
  tap_events (trace microphone_session) = [RemoveTap; InstallTap] /\
  tap_of (step platform_ok OpStop microphone_session) = false /\
  tap_events
    (trace (run [(platform_ok, OpStop);
                 (platform_ok, OpStart (microphone_args 2))]
              microphone_session))
    = [RemoveTap; InstallTap; RemoveTap; RemoveTap; InstallTap].
Proof. vm_compute. repeat split. Qed.

(** ** The result handlers on an error or a final result *)

(** C5, as the code has it.  On an error or a final result the url handler
    leaves no task tracked and, when a task was tracked, nulls the task and
    the request; it does not touch the audio engine and makes no call on the
    engine, the tap or the request's audio.  The microphone handler reports,
    removes the tap when [tapInstalled] is true, stops the engine when it is
    running and, when the request held is not a url request, ends the
    request's audio and nulls the task; the request variable keeps its
    value.  When the request held is a url request (a late result of a
    microphone session, after a url-mode call), the call of [endAudio]
    raises a TypeError after the report and the clean-up of the engine, and
    the task stays tracked. *)
Theorem handlers_on_error_or_final :
  forall (p : Platform) (t : nat) (c : Closure)
         (result : Ref Result) (error : Ref nat) (s : State),
    truthy error || is_true (and_then result isFinal) = true ->
    (exists s' new,
       url_handler p t c result error s = (Normal tt, s') /\
       truthy (recognitionTask s') = false /\
       (truthy (recognitionTask s) = true ->
        recognitionTask s' = Null /\ request s' = Null) /\
       audioEngine s' = audioEngine s /\
       trace s' = trace s ++ new /\
       forallb (fun e => negb (is_audio_event e)) new = true)
    /\
    (holds_url_request s = false ->
     exists s',
       microphone_handler p t c result error s = (Normal tt, s') /\
       recognitionTask s' = Null /\
       request s' = request s /\
       audioEngine s' = and_then (audioEngine s) engine_stopped /\
       trace s' =
         trace s
         ++ report_events t (c_progressCallback c)
              {| ev_id := c_instance c;
                 ev_error := error;
                 ev_value := and_then result formattedString;
                 ev_state := and_then (recognitionTask s)
                               (fun _ => plat_task_state p);
                 ev_finished := and_then result isFinal |}
         ++ match audioEngine s with
            | Obj e => (if tap_flag e then [RemoveTap] else [])
                       ++ (if isRunning e then [EngineStop] else [])
            | _ => []
            end
         ++ (if truthy (request s) then [EndAudio] else []))
    /\
    (holds_url_request s = true ->
     exists s',
       microphone_handler p t c result error s
         = (TypeError "request.endAudio", s') /\
       recognitionTask s' = recognitionTask s /\
       request s' = request s /\
       audioEngine s' = and_then (audioEngine s) engine_stopped /\
       trace s' =
         trace s
         ++ report_events t (c_progressCallback c)
              {| ev_id := c_instance c;
                 ev_error := error;
                 ev_value := and_then result formattedString;
                 ev_state := and_then (recognitionTask s)
                               (fun _ => plat_task_state p);
                 ev_finished := and_then result isFinal |}
         ++ match audioEngine s with
            | Obj e => (if tap_flag e then [RemoveTap] else [])
                       ++ (if isRunning e then [EngineStop] else [])
            | _ => []
            end).
Proof.
  intros p t c result error s H; split; [ | split].
  - rewrite url_handler_eq. cbv zeta. rewrite H.
    destruct (truthy (recognitionTask s)) eqn:Ht.
    + destruct (is_canceling (plat_task_state p)).
      * eexists _, _; repeat split; cbn.
        unfold report_events.
        destruct (isFunction (c_progressCallback c)); reflexivity.
      * eexists _, _; repeat split; cbn.
        unfold report_events.
        destruct (isFunction (c_progressCallback c)); reflexivity.
    + exists s, []. rewrite app_nil_r. repeat split; try assumption;
        discriminate.
  - intros Hu. rewrite microphone_handler_eq; cbv zeta.
    rewrite H, Hu. cbn [andb negb]. rewrite andb_true_r.
    eexists; repeat split.
  - intros Hu. rewrite microphone_handler_eq; cbv zeta.
    rewrite H, Hu. cbn [andb negb]. rewrite andb_false_r, app_nil_r.
    eexists; repeat split.
Qed.

Lemma handlers_on_error_or_final_witness :
  truthy (Obj 5) || is_true (and_then (@Null Result) isFinal) = true /\
  holds_url_request microphone_session = false /\
  (exists s',
     url_handler platform_ok 0
       {| c_kind := UrlHandler; c_instance := VNum 1;
          c_progressCallback := VFun 0 |}
       Null (Obj 5) url_session = (Normal tt, s') /\
     recognitionTask s' = Null /\ request s' = Null) /\
  (exists s',
     microphone_handler platform_ok 0
       {| c_kind := MicrophoneHandler; c_instance := VNum 1;
          c_progressCallback := VFun 0 |}
       Null (Obj 5) microphone_session = (Normal tt, s') /\
     recognitionTask s' = Null /\
     request s' = request microphone_session).
Proof.
  split; [reflexivity | split; [reflexivity | split] ].
  - destruct (handlers_on_error_or_final platform_ok 0
                {| c_kind := UrlHandler; c_instance := VNum 1;
                   c_progressCallback := VFun 0 |}
                Null (Obj 5) url_session eq_refl)
      as [(s' & new & H1 & _ & H3 & _) _].
    exists s'; split; [exact H1 | exact (H3 eq_refl)].
  - destruct (handlers_on_error_or_final platform_ok 0
                {| c_kind := MicrophoneHandler; c_instance := VNum 1;
                   c_progressCallback := VFun 0 |}
                Null (Obj 5) microphone_session eq_refl)
      as (_ & Hm & _).
    destruct (Hm eq_refl) as (s' & H1 & H2 & H3 & _).
    exists s'; repeat split; assumption.
Defined.

(** C5, counterexample to the claim as stated: the microphone handler of a
    running session receives an error; the task is cleared, the engine is
    stopped and the tap removed, but the request variable still holds the
    buffer request. *)
Lemma microphone_error_keeps_request :
  handlers microphone_session !! 0
    = Some {| c_kind := MicrophoneHandler; c_instance := VNum 1;
              c_progressCallback := VFun 0 |} /\
  recognitionTask
    (step platform_ok (OpResult 0 Null (Obj 5)) microphone_session) = Null /\
  request (step platform_ok (OpResult 0 Null (Obj 5)) microphone_session)
    = Obj {| req_kind := SFSpeechAudioBufferRecognitionRequest;
             shouldReportPartialResults := true |} /\
  truthy (request
            (step platform_ok (OpResult 0 Null (Obj 5)) microphone_session))
    = true /\
  tap_of (step platform_ok (OpResult 0 Null (Obj 5)) microphone_session)
    = false.
Proof. vm_compute. repeat split. Qed.

(** ** Tasks created and cancelled *)

Lemma live_app (tr evs : list Event) :
  live (tr ++ evs) = fold_left live_step evs (live tr).
Proof. unfold live. apply fold_left_app. Qed.

Lemma fold_live_task_events (tr : list Event) (l : list nat) :
  fold_left live_step (task_events tr) l = fold_left live_step tr l.
Proof.
  revert l; induction tr as [|e tr IH]; intros l; [reflexivity|].
  destruct e; cbn; apply IH.
Qed.

Lemma live_task_events (tr : list Event) : live (task_events tr) = live tr.
Proof. apply fold_live_task_events. Qed.

Lemma task_events_app (a b : list Event) :
  task_events (a ++ b) = task_events a ++ task_events b.
Proof. apply List.filter_app. Qed.

Lemma progress_events_app (a b : list Event) :
  progress_events (a ++ b) = progress_events a ++ progress_events b.
Proof. apply omap_app. Qed.

Lemma task_events_prologue (args : Args) (s : State) :
  task_events (prologue_events args s)
    = match recognitionTask s with
      | Obj t => [TaskCancel (task_id t)]
      | _ => []
      end.
Proof.
  unfold prologue_events.
  destruct (val_truthy (arg_progress args)), (recognitionTask s); reflexivity.
Qed.

Lemma progress_events_prologue (args : Args) (s : State) :
  progress_events (prologue_events args s) = [].
Proof.
  unfold prologue_events.
  destruct (val_truthy (arg_progress args)), (recognitionTask s); reflexivity.
Qed.

Lemma tracked_after_prologue (args : Args) (s : State) :
  tracked (after_prologue args s) = [].
Proof. unfold tracked; cbn. destruct (recognitionTask s); reflexivity. Qed.

Ltac shape_leaf s Ht Hp :=
  cbn -[task_events progress_events prologue_events];
  revert Ht Hp;
  destruct (recognitionTask s), (truthy (speechRecognizer s)),
    (truthy (audioEngine s));
  intros Ht Hp;
  cbn -[task_events progress_events prologue_events];
  rewrite ?task_events_app, ?progress_events_app, ?Ht, ?Hp;
  cbn; rewrite ?app_nil_r, <- ?app_assoc;
  repeat split; eauto; try discriminate.

(** What one call does to the tasks, the progress callbacks and the
    handlers: it cancels the tracked task, then creates at most one task,
    whose handler is appended; it makes no progress callback itself. *)
Lemma startRecognition_shape :
  forall (p : Platform) (args : Args) (s : State),
    let r := startRecognition p args s in
    task_events (trace (snd r))
      = task_events (trace s)
        ++ match recognitionTask s with
           | Obj t => [TaskCancel (task_id t)]
           | _ => []
           end
        ++ match creates p args s with
           | Some _ => [TaskCreate (length (handlers s))]
           | None => []
           end /\
    progress_events (trace (snd r)) = progress_events (trace s) /\
    handlers (snd r)
      = handlers s ++ match creates p args s with
                      | Some k => [closure_of args k]
                      | None => []
                      end /\
    tracked (snd r)
      = match creates p args s with
        | Some _ => [length (handlers s)]
        | None => []
        end /\
    (fst r = Normal true -> is_Some (creates p args s)).
Proof.
  intros p args s; cbv zeta.
  rewrite startRecognition_eq. unfold creates, tracked.
  pose proof (task_events_prologue args s) as Ht.
  pose proof (progress_events_prologue args s) as Hp.
  destruct (String.eqb (effective_type args) SOURCE_TYPE_URL).
  - rewrite startRecognition_url_eq.
    destruct (arg_url args) as [u|]; cbv zeta;
      [ destruct (plat_url_request p _ _) | ]; shape_leaf s Ht Hp.
  - destruct (String.eqb (effective_type args) SOURCE_TYPE_MICROPHONE).
    + rewrite startRecognition_microphone_eq; cbv zeta.
      change (engine_in_use p (after_prologue args s))
        with (engine_in_use p s).
      rewrite input_node_in_use.
      destruct (has_input_node p s); shape_leaf s Ht Hp.
    + js_unfold. shape_leaf s Ht Hp.
Qed.

Lemma startRecognition_tracked_live (p : Platform) (args : Args) (s : State) :
  live (trace s) = tracked s ->
  live (trace (snd (startRecognition p args s)))
    = tracked (snd (startRecognition p args s)).
Proof.
  intros Hlive.
  destruct (startRecognition_shape p args s) as (Ht & _ & _ & Hk & _).
  rewrite <- live_task_events, Ht, Hk, live_app, live_task_events, Hlive.
  unfold tracked.
  destruct (recognitionTask s), (creates p args s); cbn;
    rewrite ?Nat.eqb_refl; reflexivity.
Qed.

Lemma run_starts_tracked_live (calls : list (Platform * Args)) :
  forall s : State,
    live (trace s) = tracked s ->
    live (trace (run (starts calls) s)) = tracked (run (starts calls) s).
Proof.
  induction calls as [|[p args] calls IH]; intros s Hlive; [exact Hlive|].
  cbn. apply IH. apply startRecognition_tracked_live. exact Hlive.
Qed.

Lemma tracked_at_most_one (s : State) : length (tracked s) <= 1.
Proof. unfold tracked. destruct (recognitionTask s); cbn; lia. Qed.

Lemma cleared_not_obj {A} (r : Ref A) (a : A) : cleared r <> Obj a.
Proof. unfold cleared. destruct r; discriminate. Qed.

Lemma truthy_cleared {A} (r : Ref A) : truthy (cleared r) = false.
Proof. unfold cleared. destruct r; reflexivity. Qed.

(** What one call does to the request: the one held before is dropped by
    the teardown of lines 181-183, and the request held afterwards is the
    one the call built, if it built one.  A task the call leaves tracked is
    a task on that request. *)
Lemma startRecognition_request :
  forall (p : Platform) (args : Args) (s : State),
    let r := startRecognition p args s in
    match requested p args s with
    | Some rq => request (snd r) = Obj rq
    | None => truthy (request (snd r)) = false
    end /\
    (forall t, recognitionTask (snd r) = Obj t ->
               request (snd r) = Obj (task_request t)) /\
    (fst r = Normal true ->
     exists rq,
       requested p args s = Some rq /\
       recognitionTask (snd r)
         = Obj {| task_id := length (handlers s); task_request := rq |}).
Proof.
  intros p args s; cbv zeta.
  rewrite startRecognition_eq. unfold requested.
  destruct (String.eqb (effective_type args) SOURCE_TYPE_URL).
  - rewrite startRecognition_url_eq. prologue_fields args s.
    destruct (arg_url args) as [u|]; cbv zeta;
      [ destruct (plat_url_request p _ _) | ]; cbn.
    + repeat split; [ intros t [= <-]; reflexivity | eauto ].
    + repeat split; [ | discriminate ].
      intros t E. exfalso. exact (cleared_not_obj _ _ E).
    + repeat split; [ apply truthy_cleared | | discriminate ].
      intros t E. exfalso. exact (cleared_not_obj _ _ E).
  - destruct (String.eqb (effective_type args) SOURCE_TYPE_MICROPHONE).
    + rewrite startRecognition_microphone_eq; cbv zeta.
      prologue_fields args s. rewrite input_node_in_use.
      destruct (has_input_node p s);
        [ destruct (truthy (speechRecognizer s)) | ]; cbn.
      * repeat split; [ intros t [= <-]; reflexivity | eauto ].
      * repeat split; [ | discriminate ].
        intros t E. exfalso. exact (cleared_not_obj _ _ E).
      * repeat split; [ apply truthy_cleared | | discriminate ].
        intros t E. exfalso. exact (cleared_not_obj _ _ E).
    + js_unfold; cbn.
      repeat split; [ apply truthy_cleared | | discriminate ].
      intros t E. exfalso. exact (cleared_not_obj _ _ E).
Qed.

Lemma run_starts_task_on_request (calls : list (Platform * Args)) :
  forall s : State,
    (forall t, recognitionTask s = Obj t ->
               request s = Obj (task_request t)) ->
    forall t, recognitionTask (run (starts calls) s) = Obj t ->
              request (run (starts calls) s) = Obj (task_request t).
Proof.
  induction calls as [|[p args] calls IH]; intros s Hs; [exact Hs|].
  cbn. apply IH. apply startRecognition_request.
Qed.

(** C1, as the code has it.  After any sequence of [startRecognition] calls
    the tasks created and not cancelled are exactly the tracked one, so at
    most one, and the tracked task is a task on the request held.  A further
    call cancels the tracked task and drops the request held before it
    creates a new task and a new request, and it creates at most one of
    each: the request held after the call is the one the call built, and
    none is held if it built none.  When the call returns true, exactly one
    task is live, the one it created and now tracks, on the request it
    built. *)
Theorem one_task_after_startRecognition_calls :
  forall (calls : list (Platform * Args)),
    let s := run (starts calls) initial in
    live (trace s) = tracked s /\
    length (live (trace s)) <= 1 /\
    (forall t, recognitionTask s = Obj t ->
               request s = Obj (task_request t)) /\
    forall (p : Platform) (args : Args),
      let r := startRecognition p args s in
      task_events (trace (snd r))
        = task_events (trace s)
          ++ match recognitionTask s with
             | Obj t => [TaskCancel (task_id t)]
             | _ => []
             end
          ++ match creates p args s with
             | Some _ => [TaskCreate (length (handlers s))]
             | None => []
             end /\
      live (trace (snd r)) = tracked (snd r) /\
      match requested p args s with
      | Some rq => request (snd r) = Obj rq
      | None => truthy (request (snd r)) = false
      end /\
      (fst r = Normal true ->
       live (trace (snd r)) = [length (handlers s)] /\
       exists rq,
         requested p args s = Some rq /\
         request (snd r) = Obj rq /\
         recognitionTask (snd r)
           = Obj {| task_id := length (handlers s);
                    task_request := rq |}).
Proof.
  intros calls; cbv zeta.
  assert (Hlive : live (trace (run (starts calls) initial))
                  = tracked (run (starts calls) initial))
    by (apply run_starts_tracked_live; reflexivity).
  split; [exact Hlive | split; [ | split] ].
  - rewrite Hlive. apply tracked_at_most_one.
  - apply run_starts_task_on_request. discriminate.
  - intros p args.
    pose proof (startRecognition_tracked_live p args _ Hlive) as Hnext.
    destruct (startRecognition_shape p args (run (starts calls) initial))
      as (Ht & _ & _ & Hk & Hok).
    destruct (startRecognition_request p args (run (starts calls) initial))
      as (Hreq & _ & Hbuilt).
    split; [exact Ht | split; [exact Hnext | split; [exact Hreq | ] ] ].
    intros Htrue. destruct (Hok Htrue) as [k Hc].
    rewrite Hc in Hk. rewrite Hnext, Hk. split; [reflexivity|].
    destruct (Hbuilt Htrue) as (rq & Hrq & Htask).
    exists rq. rewrite Hrq in Hreq. auto.
Qed.

(** C1, counterexample to the claim as stated: two calls, the second of an
    unknown type.  The first task is cancelled and nothing is started in its
    place: no task is active. *)
Lemma no_task_after_failing_call :
  fst (startRecognition platform_ok (url_args 1) initial) = Normal true /\
  live (trace url_session) = [0] /\
  fst (startRecognition platform_ok bogus_args url_session) = Normal false /\
  live (trace (run (starts [(platform_ok, url_args 1);
                            (platform_ok, bogus_args)]) initial)) = [] /\
  recognitionTask (run (starts [(platform_ok, url_args 1);
                                (platform_ok, bogus_args)]) initial) = Null.
Proof. vm_compute. repeat split. Qed.

(** The invariant is about runs of [startRecognition] alone.  The handlers
    test and assign the module-level [recognitionTask],
    not the task they were created for, so a late call of the handler of a
    cancelled task clears the variable that by then tracks its successor; the
    next [startRecognition] finds nothing to cancel and two tasks are live. *)
Remark late_handler_untracks_successor :
  live (trace (run [(platform_ok, OpStart (url_args 1));
                    (platform_ok, OpStart (url_args 2));
                    (platform_ok, OpResult 0 Null (Obj 301));
                    (platform_ok, OpStart (url_args 3))] initial))
    = [1; 2].
Proof. vm_compute. reflexivity. Qed.

(** ** Handlers and progress callbacks over a run *)

Lemma closure_le_refl (c : Closure) : closure_le c c.
Proof. unfold closure_le; auto. Qed.

Lemma closure_le_trans (a b c : Closure) :
  closure_le a b -> closure_le b c -> closure_le a c.
Proof.
  unfold closure_le. intros (K1 & I1 & P1) (K2 & I2 & P2).
  repeat split; [congruence | congruence | ].
  destruct P2 as [P2|P2]; [ | right; exact P2 ].
  rewrite P2. exact P1.
Qed.

Lemma closure_le_function (c c' : Closure) :
  closure_le c c' ->
  isFunction (c_progressCallback c') = true ->
  c_progressCallback c' = c_progressCallback c.
Proof.
  intros (_ & _ & [H|H]) Hf; [exact H | ].
  rewrite H in Hf. discriminate.
Qed.

Lemma initialize_frame (p : Platform) (locale : option string) (s : State) :
  handlers (snd (initialize p locale s)) = handlers s /\
  progress_events (trace (snd (initialize p locale s)))
    = progress_events (trace s) /\
  task_events (trace (snd (initialize p locale s))) = task_events (trace s).
Proof.
  unfold initialize; js_unfold.
  destruct s as [eng req task sr hs tr]; cbn.
  destruct sr, (str_truthy locale); cbn;
    rewrite ?progress_events_app, ?task_events_app; cbn;
    rewrite ?app_nil_r; repeat split.
Qed.

Lemma stopRecognition_frame (s : State) :
  handlers (snd (stopRecognition s)) = handlers s /\
  progress_events (trace (snd (stopRecognition s)))
    = progress_events (trace s).
Proof.
  rewrite stopRecognition_eq; cbn [snd handlers trace].
  split; [reflexivity|].
  rewrite progress_events_app.
  destruct (audioEngine s) as [| |e], (holds_url_request s),
    (truthy (request s)), (recognitionTask s); cbn;
    try destruct (isRunning e); try destruct (tap_flag e); cbn;
    rewrite ?app_nil_r; reflexivity.
Qed.

Ltac progress_leaf :=
  cbn; unfold progress_events; rewrite ?omap_app; cbn;
  rewrite ?app_nil_r, <- ?app_assoc; cbn;
  first [ exists []; split; [ rewrite ?app_nil_r; reflexivity | constructor ]
        | eexists; split;
          [ reflexivity
          | repeat constructor; cbn; assumption ] ].

Lemma url_handler_progress (p : Platform) (t : nat) (c : Closure)
    (result : Ref Result) (error : Ref nat) (s : State) :
  exists new,
    progress_events (trace (snd (url_handler p t c result error s)))
      = progress_events (trace s) ++ new /\
    Forall (made_by t c) new.
Proof.
  unfold url_handler, clear_progressCallback, made_by; js_unfold.
  destruct s as [eng req task sr hs tr]; cbn.
  destruct task; cbn; try progress_leaf.
  destruct (is_canceling (plat_task_state p)),
    (isFunction (c_progressCallback c)) eqn:Hf,
    (truthy error || is_true (and_then result isFinal));
    cbn; try destruct (hs !! t); progress_leaf.
Qed.

Lemma microphone_handler_progress (p : Platform) (t : nat) (c : Closure)
    (result : Ref Result) (error : Ref nat) (s : State) :
  exists new,
    progress_events (trace (snd (microphone_handler p t c result error s)))
      = progress_events (trace s) ++ new /\
    Forall (made_by t c) new.
Proof.
  rewrite microphone_handler_eq; cbv zeta; cbn [snd trace].
  unfold made_by, report_events.
  destruct (isFunction (c_progressCallback c)) eqn:Hf,
    (truthy error || is_true (and_then result isFinal)),
    (audioEngine s) as [| |[[| |[[| |[|]]]] [|]]],
    (holds_url_request s), (truthy (request s)); progress_leaf.
Qed.

Lemma clear_progressCallback_lookup (t t0 : nat) (c0 : Closure) (s : State) :
  handlers s !! t0 = Some c0 ->
  exists c0',
    handlers (clear_progressCallback t s) !! t0 = Some c0' /\
    closure_le c0 c0'.
Proof.
  intros H0. unfold clear_progressCallback.
  destruct (handlers s !! t) as [c|] eqn:Ht; cbn;
    [ | exists c0; split; [exact H0 | apply closure_le_refl] ].
  destruct (decide (t0 = t)) as [->|Hne].
  - rewrite list_lookup_insert_eq by (eapply lookup_lt_Some; exact Ht).
    eexists; split; [reflexivity|].
    assert (c = c0) as -> by congruence.
    unfold closure_le; cbn; auto.
  - rewrite list_lookup_insert_ne by congruence.
    exists c0; split; [exact H0 | apply closure_le_refl].
Qed.

Lemma url_handler_handlers (p : Platform) (t : nat) (c : Closure)
    (result : Ref Result) (error : Ref nat) (s : State) :
  handlers (snd (url_handler p t c result error s)) = handlers s \/
  handlers (snd (url_handler p t c result error s))
    = handlers (clear_progressCallback t s).
Proof.
  unfold url_handler, clear_progressCallback; js_unfold.
  destruct s as [eng req task sr hs tr]; cbn.
  destruct task; cbn; auto.
  destruct (is_canceling (plat_task_state p)),
    (isFunction (c_progressCallback c)),
    (truthy error || is_true (and_then result isFinal));
    cbn; try destruct (hs !! t); cbn; auto.
Qed.

Lemma microphone_handler_handlers (p : Platform) (t : nat) (c : Closure)
    (result : Ref Result) (error : Ref nat) (s : State) :
  handlers (snd (microphone_handler p t c result error s)) = handlers s.
Proof. rewrite microphone_handler_eq. reflexivity. Qed.

(** No call ever removes a handler or changes the [instance] it captured;
    its [progressCallback] can only become null. *)
Lemma step_handlers (p : Platform) (o : Op) (s : State)
    (t : nat) (c : Closure) :
  handlers s !! t = Some c ->
  exists c', handlers (step p o s) !! t = Some c' /\ closure_le c c'.
Proof.
  intros Ht. destruct o as [locale|args| |t0 result error]; cbn [step].
  - destruct (initialize_frame p locale s) as (-> & _).
    exists c; split; [exact Ht | apply closure_le_refl].
  - destruct (startRecognition_shape p args s) as (_ & _ & -> & _).
    exists c; split; [ | apply closure_le_refl].
    apply lookup_app_l_Some. exact Ht.
  - destruct (stopRecognition_frame s) as (-> & _).
    exists c; split; [exact Ht | apply closure_le_refl].
  - unfold result_handler; js_unfold.
    destruct (handlers s !! t0) as [c0|] eqn:H0;
      [ | exists c; split; [exact Ht | apply closure_le_refl] ].
    destruct (c_kind c0).
    + destruct (url_handler_handlers p t0 c0 result error s) as [->| ->].
      * exists c; split; [exact Ht | apply closure_le_refl].
      * apply clear_progressCallback_lookup. exact Ht.
    + rewrite microphone_handler_handlers.
      exists c; split; [exact Ht | apply closure_le_refl].
Qed.

(** The progress callbacks one call adds are made by the handler named in
    the call, through its closure as it is when the call begins. *)
Lemma step_progress (p : Platform) (o : Op) (s : State) :
  exists new,
    progress_events (trace (step p o s)) = progress_events (trace s) ++ new /\
    forall x, In x new ->
      exists c, handlers s !! fst (fst x) = Some c /\ made_by (fst (fst x)) c x.
Proof.
  destruct o as [locale|args| |t0 result error]; cbn [step].
  - destruct (initialize_frame p locale s) as (_ & -> & _).
    exists []; split; [symmetry; apply app_nil_r | intros x []].
  - destruct (startRecognition_shape p args s) as (_ & -> & _).
    exists []; split; [symmetry; apply app_nil_r | intros x []].
  - destruct (stopRecognition_frame s) as (_ & ->).
    exists []; split; [symmetry; apply app_nil_r | intros x []].
  - unfold result_handler; js_unfold.
    destruct (handlers s !! t0) as [c0|] eqn:H0;
      [ | exists []; split; [symmetry; apply app_nil_r | intros x []] ].
    assert (exists new,
              progress_events
                (trace (snd (match c_kind c0 with
                             | UrlHandler => url_handler p t0 c0 result error
                             | MicrophoneHandler =>
                                 microphone_handler p t0 c0 result error
                             end s)))
              = progress_events (trace s) ++ new /\
              Forall (made_by t0 c0) new) as (new & Hnew & Hall).
    { destruct (c_kind c0);
        [apply url_handler_progress | apply microphone_handler_progress]. }
    exists new; split; [exact Hnew|].
    intros x Hx. rewrite Forall_forall in Hall.
    apply list_elem_of_In in Hx.
    pose proof (Hall x Hx) as Hm.
    destruct Hm as (Hm1 & Hm2). rewrite Hm1.
    exists c0; split; [exact H0 | ].
    unfold made_by; rewrite Hm1; auto.
Qed.

(** Over any run, the progress callbacks made by the handler of a task that
    is registered at the start carry the [instance] its closure holds at the
    start, and are calls of the function it holds at the start. *)
Lemma run_progress (ops : list (Platform * Op)) :
  forall (s : State) (t : nat) (c : Closure),
    handlers s !! t = Some c ->
    exists new,
      progress_events (trace (run ops s)) = progress_events (trace s) ++ new /\
      forall cb ev, In (t, cb, ev) new ->
        cb = c_progressCallback c /\ isFunction cb = true /\
        ev_id ev = c_instance c.
Proof.
  induction ops as [|[p o] ops IH]; intros s t c Ht.
  - exists []; split; [symmetry; apply app_nil_r | intros cb ev []].
  - cbn [run].
    destruct (step_progress p o s) as (new1 & E1 & H1).
    destruct (step_handlers p o s t c Ht) as (c' & Ht' & Hle).
    destruct (IH (step p o s) t c' Ht') as (new2 & E2 & H2).
    exists (new1 ++ new2); split.
    + rewrite E2, E1, app_assoc. reflexivity.
    + intros cb ev Hin. apply in_app_or in Hin as [Hin|Hin].
      * destruct (H1 _ Hin) as (c1 & Hc1 & Hm). cbn in Hc1.
        assert (c1 = c) as -> by congruence.
        destruct Hm as (_ & Hcb & Hf & Hid). cbn in *. auto.
      * destruct (H2 cb ev Hin) as (Hcb & Hf & Hid).
        rewrite Hcb in Hf.
        pose proof (closure_le_function c c' Hle Hf) as Hsame.
        destruct Hle as (_ & Hi & _).
        rewrite Hid, Hi, Hcb, Hsame. rewrite Hsame in Hf.
        repeat split; [exact Hf].
Qed.

(** ** The correlation id *)

(** C9.  Let a [startRecognition] call register its handler (the closure [c]
    at the index of the task it creates).  The closure holds the [id] of the
    call, and whatever calls follow (of the module or of any handler, in any
    order and with any answers of the platform) every progress callback made
    by that handler carries that [id]. *)
Theorem progress_events_carry_call_id :
  forall (p : Platform) (args : Args) (s : State)
         (ops : list (Platform * Op)) (c : Closure),
    let s' := snd (startRecognition p args s) in
    handlers s' !! length (handlers s) = Some c ->
    c_instance c = arg_id args /\
    exists new,
      progress_events (trace (run ops s')) = progress_events (trace s) ++ new /\
      forall cb ev,
        In (length (handlers s), cb, ev) new -> ev_id ev = arg_id args.
Proof.
  intros p args s ops c s' Hc. subst s'.
  destruct (startRecognition_shape p args s) as (_ & Hp & Hh & _).
  assert (Hid : c_instance c = arg_id args).
  { rewrite Hh in Hc.
    destruct (creates p args s) as [k|].
    - rewrite lookup_app_r, Nat.sub_diag in Hc by lia.
      cbn in Hc. injection Hc as <-. reflexivity.
    - rewrite app_nil_r in Hc.
      apply lookup_lt_Some in Hc. lia. }
  split; [exact Hid|].
  destruct (run_progress ops _ _ _ Hc) as (new & Hnew & Hall).
  exists new. rewrite Hnew, Hp. split; [reflexivity|].
  intros cb ev Hin. destruct (Hall cb ev Hin) as (_ & _ & Hev).
  rewrite Hev. exact Hid.
Qed.

Lemma progress_events_carry_call_id_witness :
  handlers url_session !! 0
    = Some {| c_kind := UrlHandler; c_instance := VNum 1;
              c_progressCallback := VFun 0 |} /\
  exists new,
    progress_events (trace (run two_results url_session)) = [] ++ new /\
    forall cb ev, In (0, cb, ev) new -> ev_id ev = VNum 1.
Proof.
  split; [reflexivity|].
  exact (proj2 (progress_events_carry_call_id
                  platform_ok (url_args 1) initial two_results
                  {| c_kind := UrlHandler; c_instance := VNum 1;
                     c_progressCallback := VFun 0 |} eq_refl)).
Defined.

(** The callbacks of that run, written out. *)
Example two_results_progress :
  progress_events (trace (run two_results url_session))
    = [(0, VFun 0,
        {| ev_id := VNum 1; ev_error := Null; ev_value := Obj "hello";
           ev_state := Obj SFSpeechRecognitionTaskStateRunning;
           ev_finished := Obj false |});
       (0, VFun 0,
        {| ev_id := VNum 1; ev_error := Null; ev_value := Obj "hello world";
           ev_state := Obj SFSpeechRecognitionTaskStateRunning;
           ev_finished := Obj true |})].
Proof. vm_compute. reflexivity. Qed.

(** ** Cancellation seen by a handler *)

(** C4, as the code has it.  The url handler, called while a task is tracked
    and the platform reports it as being cancelled, logs, makes one progress
    callback with [finished: true] (when its [progressCallback] is a
    function; none otherwise), and nulls the task, the request and its own
    [progressCallback].  From then on, whatever calls follow, that handler
    makes no progress callback. *)
Theorem url_cancellation_is_terminal :
  forall (p : Platform) (t : nat) (c : Closure)
         (result : Ref Result) (error : Ref nat) (s : State),
    handlers s !! t = Some c ->
    c_kind c = UrlHandler ->
    truthy (recognitionTask s) = true ->
    is_canceling (plat_task_state p) = true ->
    let s' := step p (OpResult t result error) s in
    trace s' =
      trace s
      ++ ConsoleInfo "The speech recognition task has been cancelled."
         :: report_events t (c_progressCallback c)
              {| ev_id := c_instance c;
                 ev_error := error;
                 ev_value := and_then result formattedString;
                 ev_state := Obj (plat_task_state p);
                 ev_finished := Obj true |} /\
    recognitionTask s' = Null /\
    request s' = Null /\
    handlers s' !! t
      = Some {| c_kind := UrlHandler; c_instance := c_instance c;
                c_progressCallback := VNull |} /\
    forall ops : list (Platform * Op),
      exists new,
        progress_events (trace (run ops s'))
          = progress_events (trace s') ++ new /\
        forall cb ev, ~ In (t, cb, ev) new.
Proof.
  intros p t c result error s Ht Hk Htask Hcan s'.
  assert (Hs' : s' = snd (url_handler p t c result error s)).
  { subst s'. cbn [step]. unfold result_handler; js_unfold.
    rewrite Ht, Hk. reflexivity. }
  assert (Hlt : t < length (handlers s)) by (eapply lookup_lt_Some; eauto).
  assert (Hshape :
    trace s' =
      trace s
      ++ ConsoleInfo "The speech recognition task has been cancelled."
         :: report_events t (c_progressCallback c)
              {| ev_id := c_instance c;
                 ev_error := error;
                 ev_value := and_then result formattedString;
                 ev_state := Obj (plat_task_state p);
                 ev_finished := Obj true |} /\
    recognitionTask s' = Null /\
    request s' = Null /\
    handlers s' !! t
      = Some {| c_kind := UrlHandler; c_instance := c_instance c;
                c_progressCallback := VNull |}).
  { rewrite Hs'. clear Hs' s'.
    unfold url_handler, clear_progressCallback, report_events; js_unfold.
    destruct s as [eng req task sr hs tr]; cbn in *.
    destruct task; try discriminate. cbn. rewrite Hcan.
    destruct (isFunction (c_progressCallback c)); cbn; rewrite Ht; cbn;
      rewrite list_lookup_insert_eq by exact Hlt;
      rewrite <- ?app_assoc, Hk; repeat split. }
  destruct Hshape as (H1 & H2 & H3 & H4).
  repeat split; try assumption.
  intros ops.
  destruct (run_progress ops s' t _ H4) as (new & Hnew & Hall).
  exists new; split; [exact Hnew|].
  intros cb ev Hin. destruct (Hall cb ev Hin) as (Hcb & Hf & _).
  rewrite Hcb in Hf. discriminate.
Qed.

Lemma url_cancellation_is_terminal_witness :
  handlers url_session !! 0
    = Some {| c_kind := UrlHandler; c_instance := VNum 1;
              c_progressCallback := VFun 0 |} /\
  truthy (recognitionTask url_session) = true /\
  is_canceling (plat_task_state platform_canceling) = true /\
  recognitionTask
    (step platform_canceling (OpResult 0 Null (Obj 301)) url_session)
    = Null /\
  request (step platform_canceling (OpResult 0 Null (Obj 301)) url_session)
    = Null /\
  forall ops : list (Platform * Op),
    exists new,
      progress_events
        (trace (run ops (step platform_canceling
                           (OpResult 0 Null (Obj 301)) url_session)))
        = progress_events
            (trace (step platform_canceling
                      (OpResult 0 Null (Obj 301)) url_session))
          ++ new /\
      forall cb ev, ~ In (0, cb, ev) new.
Proof.
  destruct (url_cancellation_is_terminal
              platform_canceling 0
              {| c_kind := UrlHandler; c_instance := VNum 1;
                 c_progressCallback := VFun 0 |}
              Null (Obj 301) url_session
              eq_refl eq_refl eq_refl eq_refl)
    as (_ & H2 & H3 & _ & H5).
  repeat split; try reflexivity; assumption.
Defined.

(** That run written out: one callback with [finished: true], and the two
    results delivered afterwards reach nobody. *)
Example url_cancellation_progress :
  progress_events
    (trace (step platform_canceling (OpResult 0 Null (Obj 301)) url_session))
    = [(0, VFun 0,
        {| ev_id := VNum 1; ev_error := Obj 301; ev_value := Null;
           ev_state := Obj SFSpeechRecognitionTaskStateCanceling;
           ev_finished := Obj true |})] /\
  progress_events
    (trace (run two_results
              (step platform_canceling (OpResult 0 Null (Obj 301))
                 url_session)))
    = progress_events
        (trace (step platform_canceling (OpResult 0 Null (Obj 301))
                  url_session)).
Proof. vm_compute. split; reflexivity. Qed.

(** C4, counterexample to the claim as stated: the microphone handler does
    not look at the task's state.  Called twice while the platform reports
    the task as being cancelled (no result, no error), it makes two progress
    callbacks, neither with [finished: true], and the task, the request and
    the callback all stay in place. *)
Lemma microphone_handler_ignores_cancellation :
  is_canceling (plat_task_state platform_canceling) = true /\
  progress_events
    (trace (run [(platform_canceling, OpResult 0 Null Null);
                 (platform_canceling, OpResult 0 Null Null)]
              microphone_session))
    = [(0, VFun 0,
        {| ev_id := VNum 1; ev_error := Null; ev_value := Null;
           ev_state := Obj SFSpeechRecognitionTaskStateCanceling;
           ev_finished := Null |});
       (0, VFun 0,
        {| ev_id := VNum 1; ev_error := Null; ev_value := Null;
           ev_state := Obj SFSpeechRecognitionTaskStateCanceling;
           ev_finished := Null |})] /\
  truthy (recognitionTask
            (run [(platform_canceling, OpResult 0 Null Null);
                  (platform_canceling, OpResult 0 Null Null)]
               microphone_session)) = true /\
  truthy (request
            (run [(platform_canceling, OpResult 0 Null Null);
                  (platform_canceling, OpResult 0 Null Null)]
               microphone_session)) = true /\
  handlers (run [(platform_canceling, OpResult 0 Null Null);
                 (platform_canceling, OpResult 0 Null Null)]
              microphone_session) !! 0
    = Some {| c_kind := MicrophoneHandler; c_instance := VNum 1;
              c_progressCallback := VFun 0 |}.
Proof. vm_compute. repeat split. Qed.

(** * Further properties *)

(** ** Authorization callbacks *)

(** X1.  The speech authorization callback reports success exactly when the
    status is the platform's Authorized constant, whatever the values of the
    other constants; it always passes the status on unchanged; and a status
    that is none of the four constants gets the generic failure message. *)
Theorem speech_authorization_success :
  forall (k : AuthorizationStatuses) (status : Z),
    (sp_success (speech_authorization k status) = true <->
     status = SFSpeechRecognizerAuthorizationStatusAuthorized k) /\
    sp_status (speech_authorization k status) = status /\
    (status <> SFSpeechRecognizerAuthorizationStatusAuthorized k ->
     status <> SFSpeechRecognizerAuthorizationStatusDenied k ->
     status <> SFSpeechRecognizerAuthorizationStatusRestricted k ->
     status <> SFSpeechRecognizerAuthorizationStatusNotDetermined k ->
     speech_authorization k status =
       {| sp_success := false;
          sp_message :=
            "Something has gone wrong requesting Speech Recognition authorization";
          sp_status := status |}).
Proof.
  intros k status. unfold speech_authorization.
  destruct (Z.eqb_spec status
              (SFSpeechRecognizerAuthorizationStatusAuthorized k)) as [Ha|Ha];
    [ cbn; repeat split; auto; intros; contradiction | ].
  destruct (Z.eqb_spec status
              (SFSpeechRecognizerAuthorizationStatusDenied k)) as [Hd|Hd];
    [ cbn; repeat split; try discriminate; intros; contradiction | ].
  destruct (Z.eqb_spec status
              (SFSpeechRecognizerAuthorizationStatusRestricted k)) as [Hr|Hr];
    [ cbn; repeat split; try discriminate; intros; contradiction | ].
  destruct (Z.eqb_spec status
              (SFSpeechRecognizerAuthorizationStatusNotDetermined k))
    as [Hn|Hn];
    cbn; repeat split; try discriminate; intros; contradiction.
Qed.

(** X2.  The message tells the known statuses apart: a status that is one
    of the platform's four constants shares its message with no other
    status. *)
Theorem speech_authorization_message_tells_status :
  forall (k : AuthorizationStatuses) (a b : Z),
    In a [SFSpeechRecognizerAuthorizationStatusAuthorized k;
          SFSpeechRecognizerAuthorizationStatusDenied k;
          SFSpeechRecognizerAuthorizationStatusRestricted k;
          SFSpeechRecognizerAuthorizationStatusNotDetermined k] ->
    sp_message (speech_authorization k a)
      = sp_message (speech_authorization k b) ->
    a = b.
Proof.
  intros k a b Hin Hmsg.
  unfold speech_authorization in Hmsg.
  repeat match type of Hmsg with
         | context [Z.eqb ?x ?y] => destruct (Z.eqb_spec x y)
         end; cbn in Hmsg; try discriminate; try congruence.
  all: cbn in Hin; intuition congruence.
Qed.

Lemma speech_authorization_message_tells_status_witness :
  In 1%Z [SFSpeechRecognizerAuthorizationStatusAuthorized apple_statuses;
          SFSpeechRecognizerAuthorizationStatusDenied apple_statuses;
          SFSpeechRecognizerAuthorizationStatusRestricted apple_statuses;
          SFSpeechRecognizerAuthorizationStatusNotDetermined apple_statuses] /\
  sp_message (speech_authorization apple_statuses 1)
    = "User denied access to speech recognition" /\
  (sp_message (speech_authorization apple_statuses 1)
     = sp_message (speech_authorization apple_statuses 1) -> 1%Z = 1%Z).
Proof.
  split; [cbn; auto | split; [reflexivity | ] ].
  apply (speech_authorization_message_tells_status apple_statuses 1 1).
  cbn; auto.
Defined.

(** X3.  The microphone callback passes [mic.success] on as it came, and its
    message agrees with it: the message is the granted one exactly when the
    value passed as success is truthy, and the denied one otherwise. *)
Theorem microphone_authorization_consistent :
  forall v : JsVal,
    mp_success (microphone_authorization v) = v /\
    (mp_message (microphone_authorization v)
       = "Recording permission has been granted." <->
     val_truthy (mp_success (microphone_authorization v)) = true) /\
    (mp_message (microphone_authorization v)
       = "Recording permission has been denied." <->
     val_truthy (mp_success (microphone_authorization v)) = false).
Proof.
  intros v. unfold microphone_authorization; cbn.
  destruct (val_truthy v); repeat split; intros; try reflexivity;
    discriminate.
Qed.

(** ** The resource name and extension of a url *)

Lemma append_cons (c : ascii) (r b : string) :
  String c r +:+ b = String c (r +:+ b).
Proof. reflexivity. Qed.

Lemma append_assoc (a b c : string) : (a +:+ b) +:+ c = a +:+ (b +:+ c).
Proof.
  induction a as [|x a IH]; [reflexivity|].
  rewrite !append_cons, IH. reflexivity.
Qed.

Lemma split_dot_nonempty (u : string) : split_dot u <> [].
Proof.
  destruct u as [|c r]; cbn; [discriminate|].
  destruct (Ascii.eqb c "."); [discriminate|].
  destruct (split_dot r); discriminate.
Qed.

Lemma split_dot_concat (u : string) : String.concat "." (split_dot u) = u.
Proof.
  induction u as [|c r IH]; [reflexivity|].
  cbn [split_dot].
  destruct (Ascii.eqb_spec c ".") as [->|Hc].
  - pose proof (split_dot_nonempty r) as Hne.
    destruct (split_dot r) as [|h t] eqn:E; [contradiction|].
    cbn in *. rewrite IH. reflexivity.
  - pose proof (split_dot_nonempty r) as Hne.
    destruct (split_dot r) as [|h t] eqn:E; [contradiction|].
    destruct t as [|h' t']; cbn in *; rewrite <- IH; reflexivity.
Qed.

Lemma split_dot_no_dot (u : string) :
  Forall (fun piece => has_dot piece = false) (split_dot u).
Proof.
  induction u as [|c r IH]; [repeat constructor|].
  cbn [split_dot].
  destruct (Ascii.eqb_spec c ".") as [->|Hc].
  - constructor; [reflexivity | exact IH].
  - destruct (split_dot r) as [|h t]; [repeat constructor; cbn|].
    + apply Ascii.eqb_neq in Hc. rewrite Hc. reflexivity.
    + inversion IH as [|? ? Hh Ht]; subst. constructor; [|exact Ht].
      cbn. apply Ascii.eqb_neq in Hc. rewrite Hc, Hh. reflexivity.
Qed.

Lemma split_dot_single (u : string) :
  has_dot u = false -> split_dot u = [u].
Proof.
  induction u as [|c r IH]; [reflexivity|].
  cbn. destruct (Ascii.eqb c "."); cbn; [discriminate|].
  intros H. rewrite (IH H). reflexivity.
Qed.

Lemma split_dot_several (u : string) :
  has_dot u = true -> exists h t, split_dot u = h :: t /\ t <> [].
Proof.
  induction u as [|c r IH]; [discriminate|].
  cbn. destruct (Ascii.eqb c "."); cbn.
  - intros _. pose proof (split_dot_nonempty r).
    exists "", (split_dot r). split; [reflexivity | assumption].
  - intros H. destruct (IH H) as (h & t & -> & Ht).
    exists (String c h), t. split; [reflexivity | assumption].
Qed.

Lemma concat_removelast_last (l : list string) :
  2 <= length l ->
  String.concat "." (removelast l) +:+ "." +:+ List.last l "" 
    = String.concat "." l.
Proof.
  induction l as [|a l IH]; cbn [length]; [lia|].
  intros Hlen.
  destruct l as [|b l]; [cbn in Hlen; lia|].
  destruct l as [|c l].
  - cbn. reflexivity.
  - assert (H2 : 2 <= length (b :: c :: l)) by (cbn; lia).
    specialize (IH H2).
    change (removelast (a :: b :: c :: l)) with (a :: removelast (b :: c :: l)).
    change (List.last (a :: b :: c :: l) "") with (List.last (b :: c :: l) "").
    change (String.concat "." (a :: b :: c :: l))
      with (a +:+ "." +:+ String.concat "." (b :: c :: l)).
    rewrite <- IH.
    destruct (removelast (b :: c :: l)) as [|x xs] eqn:E.
    + cbn in E. destruct l; discriminate.
    + change (String.concat "." (a :: x :: xs))
        with (a +:+ "." +:+ String.concat "." (x :: xs)).
      rewrite !append_assoc. reflexivity.
Qed.

(** X4.  Splitting a url at its last dot loses nothing: when the url has a
    dot, name, dot and extension put together give the url back; when it has
    none, the whole url becomes the extension and the name is empty.  The
    extension never has a dot in it. *)
Theorem resource_of_round_trip :
  forall u : string,
    (if has_dot u
     then fst (resource_of u) +:+ "." +:+ snd (resource_of u) = u
     else resource_of u = ("", u)) /\
    has_dot (snd (resource_of u)) = false.
Proof.
  intros u. unfold resource_of; cbn [fst snd]. split.
  - destruct (has_dot u) eqn:Hd.
    + destruct (split_dot_several u Hd) as (h & t & E & Ht).
      rewrite concat_removelast_last.
      * apply split_dot_concat.
      * rewrite E. destruct t; [contradiction | cbn; lia].
    + rewrite (split_dot_single u Hd). reflexivity.
  - pose proof (split_dot_no_dot u) as Hall.
    pose proof (split_dot_nonempty u) as Hne.
    induction (split_dot u) as [|a l IH]; [contradiction|].
    inversion Hall as [|? ? Ha Hl]; subst.
    destruct l as [|b l]; [exact Ha|].
    apply IH; [exact Hl | discriminate].
Qed.

(** ** initialize and isAvailable *)

(** X5.  [initialize] never fails, from any state, and the last call wins:
    the recognizer it leaves is determined by its locale and the platform's
    answer alone (the default recognizer without a locale, the recognizer of
    the locale when the platform supports it, null otherwise), whatever was
    held before.  It makes exactly one recognizer construction and leaves a
    session in progress (engine, request, task, handlers) exactly as it
    was. *)
Theorem initialize_last_wins :
  forall (p : Platform) (locale : option string) (s : State),
    let r := initialize p locale s in
    fst r = Normal tt /\
    speechRecognizer (snd r)
      = (if str_truthy locale then
           if plat_locale p (default "" locale)
           then Obj (LocaleRecognizer (default "" locale)) else Null
         else Obj DefaultRecognizer) /\
    audioEngine (snd r) = audioEngine s /\
    request (snd r) = request s /\
    recognitionTask (snd r) = recognitionTask s /\
    handlers (snd r) = handlers s /\
    trace (snd r)
      = trace s ++ [RecognizerInit (if str_truthy locale
                                    then Some (default "" locale)
                                    else None)].
Proof.
  intros p locale s; cbv zeta.
  rewrite initialize_eq. cbn. repeat split.
Qed.

(** X6.  After [initialize], [isAvailable] returns the platform's boolean
    answer, except after an [initialize] with a locale the platform does not
    support: the recognizer is then null and [isAvailable] returns that
    null. *)
Theorem isAvailable_after_initialize :
  forall (p p' : Platform) (locale : option string) (s : State),
    isAvailable p' (snd (initialize p locale s)) =
      if str_truthy locale && negb (plat_locale p (default "" locale))
      then Null
      else Obj (plat_available p').
Proof.
  intros p p' locale s. rewrite initialize_eq. unfold isAvailable; cbn.
  destruct (str_truthy locale), (plat_locale p (default "" locale));
    reflexivity.
Qed.

(** X7.  After an [initialize] with an unsupported locale, a url-mode call
    whose request can be built does not fail: it silently replaces the
    missing recognizer by the default one and returns true. *)
Theorem url_start_after_unsupported_locale :
  forall (p p' : Platform) (l u : string) (args : Args) (s : State),
    l <> "" ->
    plat_locale p l = false ->
    effective_type args = SOURCE_TYPE_URL ->
    arg_url args = Some u ->
    plat_url_request p' (fst (resource_of u)) (snd (resource_of u)) = true ->
    let s1 := snd (initialize p (Some l) s) in
    speechRecognizer s1 = Null /\
    fst (startRecognition p' args s1) = Normal true /\
    speechRecognizer (snd (startRecognition p' args s1))
      = Obj DefaultRecognizer.
Proof.
  intros p p' l u args s Hl Hloc Ht Hu Hreq; cbv zeta.
  rewrite initialize_eq.
  assert (Hs : str_truthy (Some l) = true).
  { cbn. apply String.eqb_neq in Hl. rewrite Hl. reflexivity. }
  rewrite Hs. change (default "" (Some l)) with l. rewrite Hloc.
  split; [reflexivity|].
  rewrite startRecognition_eq, Ht.
  change (String.eqb SOURCE_TYPE_URL SOURCE_TYPE_URL) with true.
  cbv iota. rewrite startRecognition_url_eq, Hu; cbv zeta.
  rewrite Hreq. cbn. split; reflexivity.
Qed.

Lemma url_start_after_unsupported_locale_witness :
  "xx-XX" <> "" /\
  speechRecognizer (snd (initialize platform_no_locale (Some "xx-XX") initial))
    = Null /\
  fst (startRecognition platform_ok (url_args 1)
         (snd (initialize platform_no_locale (Some "xx-XX") initial)))
    = Normal true /\
  speechRecognizer
    (snd (startRecognition platform_ok (url_args 1)
            (snd (initialize platform_no_locale (Some "xx-XX") initial))))
    = Obj DefaultRecognizer.
Proof.
  split; [discriminate|].
  apply (url_start_after_unsupported_locale
           platform_no_locale platform_ok "xx-XX" "sounds/hello.mp3"
           (url_args 1) initial);
    (discriminate || reflexivity).
Defined.

(** ** Invariants of every run *)

Lemma run_invariant (I : State -> Prop) :
  (forall p o s, I s -> I (step p o s)) ->
  forall ops s, I s -> I (run ops s).
Proof.
  intros Hstep ops. induction ops as [|[p o] ops IH]; intros s Hs;
    [exact Hs|].
  cbn. apply IH, Hstep, Hs.
Qed.

Lemma tap_machine_app (a b : list Event) :
  tap_machine (a ++ b) = fold_left tap_step b (tap_machine a).
Proof. unfold tap_machine. apply fold_left_app. Qed.

Lemma tap_step_prologue (args : Args) (s : State) (st : bool * bool) :
  fold_left tap_step (prologue_events args s) st = st.
Proof.
  unfold prologue_events.
  destruct (val_truthy (arg_progress args)), (recognitionTask s); reflexivity.
Qed.

Lemma tap_step_report (t : nat) (cb : JsVal) (ev : ProgressEvent)
    (st : bool * bool) :
  fold_left tap_step (report_events t cb ev) st = st.
Proof. unfold report_events. destruct (isFunction cb); reflexivity. Qed.

Lemma tap_machine_step (p : Platform) (o : Op) (s : State) :
  tap_machine (trace s) = (tap_of s, false) ->
  tap_machine (trace (step p o s)) = (tap_of (step p o s), false).
Proof.
  intros Hs. destruct o as [locale|args| |t result error]; cbn [step].
  - rewrite initialize_eq; cbn [snd trace].
    rewrite tap_machine_app, Hs. reflexivity.
  - rewrite startRecognition_eq.
    destruct (String.eqb (effective_type args) SOURCE_TYPE_URL).
    + rewrite startRecognition_url_eq. prologue_fields args s.
      destruct (arg_url args) as [u|]; cbv zeta;
        [ destruct (plat_url_request p _ _) | ];
        cbn [snd trace after_prologue];
        rewrite ?tap_machine_app, ?fold_left_app, Hs, ?tap_step_prologue;
        try destruct (truthy (speechRecognizer s)); reflexivity.
    + destruct (String.eqb (effective_type args) SOURCE_TYPE_MICROPHONE).
      * rewrite startRecognition_microphone_eq; cbv zeta.
        prologue_fields args s.
        pose proof (tap_flag_in_use p s) as Hflag.
        destruct (truthy (inputNode (engine_in_use p s)));
          [ destruct (truthy (speechRecognizer s)) | ];
          cbn [snd trace after_prologue];
          rewrite ?tap_machine_app, ?fold_left_app, Hs, ?tap_step_prologue;
          destruct (truthy (audioEngine s)); cbn;
          unfold tap_of; cbn; rewrite ?Hflag; reflexivity.
      * js_unfold; cbn -[tap_machine tap_of prologue_events].
        rewrite ?tap_machine_app, ?fold_left_app, Hs, ?tap_step_prologue.
        reflexivity.
  - rewrite stopRecognition_eq; cbn [snd trace].
    rewrite tap_machine_app, Hs.
    unfold tap_of, engine_stopped, engine_halted, tap_flag.
    destruct (audioEngine s) as [| |[[| |[[| |[|]]]] [|]]],
      (holds_url_request s), (truthy (request s)), (recognitionTask s);
      reflexivity.
  - rewrite result_handler_eq.
    destruct (handlers s !! t) as [c|]; [ | exact Hs ].
    destruct (c_kind c).
    + rewrite url_handler_eq; cbn [snd].
      destruct (truthy (recognitionTask s)); [ | exact Hs ].
      destruct (is_canceling (plat_task_state p)); cbv zeta;
        cbn [trace]; rewrite tap_machine_app, Hs; cbn [fold_left tap_step];
        rewrite tap_step_report; reflexivity.
    + rewrite microphone_handler_eq; cbv zeta; cbn [snd trace].
      rewrite tap_machine_app, fold_left_app, Hs, tap_step_report.
      unfold tap_of, engine_stopped, tap_flag.
      destruct (truthy error || is_true (and_then result isFinal)),
        (audioEngine s) as [| |[[| |[[| |[|]]]] [|]]],
        (holds_url_request s), (truthy (request s)); reflexivity.
Qed.

(** X8.  Whatever is called, in whatever order and with whatever answers of
    the platform, starting from the freshly loaded module: [tapInstalled]
    says exactly whether the last call on the tap was an installation, and
    [installTapOnBus...] is never called while a tap installed by the module
    is still in place. *)
Theorem tapInstalled_tracks_the_tap :
  forall ops : list (Platform * Op),
    tap_machine (trace (run ops initial)) = (tap_of (run ops initial), false).
Proof.
  intros ops.
  apply (run_invariant
           (fun s => tap_machine (trace s) = (tap_of s, false))).
  - intros p o s. apply tap_machine_step.
  - reflexivity.
Qed.

Lemma session_consistent_intro (s : State) :
  (forall r, request s = Obj r -> shouldReportPartialResults r = true) ->
  truthy (recognitionTask s) = false ->
  session_consistent s.
Proof.
  intros Hr Ht. split; [exact Hr|].
  intros t E. rewrite E in Ht. discriminate.
Qed.

Lemma session_consistent_step (p : Platform) (o : Op) (s : State) :
  session_consistent s -> session_consistent (step p o s).
Proof.
  intros [Hr Ht]. destruct o as [locale|args| |t result error]; cbn [step].
  - rewrite initialize_eq; cbn [snd]. split; cbn; assumption.
  - rewrite startRecognition_eq.
    destruct (String.eqb (effective_type args) SOURCE_TYPE_URL).
    + rewrite startRecognition_url_eq. prologue_fields args s.
      destruct (arg_url args) as [u|]; cbv zeta;
        [ destruct (plat_url_request p _ _) | ]; cbn [snd].
      * split; cbn.
        -- intros r [= <-]. reflexivity.
        -- intros t [= <-]. cbn. split; [reflexivity|].
           eexists. rewrite lookup_app_r, Nat.sub_diag by lia.
           split; reflexivity.
      * apply session_consistent_intro; cbn;
          [ discriminate | apply truthy_cleared ].
      * apply session_consistent_intro; cbn;
          [ intros r E; exfalso; exact (cleared_not_obj _ _ E)
          | apply truthy_cleared ].
    + destruct (String.eqb (effective_type args) SOURCE_TYPE_MICROPHONE).
      * rewrite startRecognition_microphone_eq; cbv zeta.
        prologue_fields args s.
        destruct (truthy (inputNode (engine_in_use p s)));
          [ destruct (truthy (speechRecognizer s)) | ]; cbn [snd].
        -- split; cbn.
           ++ intros r [= <-]. reflexivity.
           ++ intros t [= <-]. cbn. split; [reflexivity|].
              eexists. rewrite lookup_app_r, Nat.sub_diag by lia.
              split; reflexivity.
        -- apply session_consistent_intro; cbn;
             [ intros r [= <-]; reflexivity | apply truthy_cleared ].
        -- apply session_consistent_intro; cbn;
             [ intros r E; exfalso; exact (cleared_not_obj _ _ E)
             | apply truthy_cleared ].
      * js_unfold; cbn.
        apply session_consistent_intro; cbn;
          [ intros r E; exfalso; exact (cleared_not_obj _ _ E)
          | apply truthy_cleared ].
  - rewrite stopRecognition_eq; cbn [snd]. split; cbn; assumption.
  - rewrite result_handler_eq.
    destruct (handlers s !! t) as [c|]; [ | split; assumption ].
    destruct (c_kind c).
    + rewrite url_handler_eq; cbn [snd].
      destruct (truthy (recognitionTask s)); [ | split; assumption ].
      destruct (is_canceling (plat_task_state p)); cbv zeta.
      * apply session_consistent_intro; cbn; [discriminate | reflexivity].
      * destruct (truthy error || is_true (and_then result isFinal)).
        -- apply session_consistent_intro; cbn; [discriminate | reflexivity].
        -- split; cbn; assumption.
    + rewrite microphone_handler_eq; cbv zeta; cbn [snd].
      destruct (truthy error || is_true (and_then result isFinal)).
      * destruct (holds_url_request s); cbn.
        -- split; cbn; assumption.
        -- apply session_consistent_intro; cbn; [exact Hr | reflexivity].
      * split; cbn; assumption.
Qed.

(** X9.  Whatever is called, starting from the freshly loaded module: a
    request the module holds always has [shouldReportPartialResults] set,
    and a tracked task always comes with its own request held in [request]
    and with its handler (the url one for a url request, the microphone one
    for a buffer request) registered. *)
Theorem session_stays_consistent :
  forall ops : list (Platform * Op), session_consistent (run ops initial).
Proof.
  intros ops. apply (run_invariant session_consistent).
  - apply session_consistent_step.
  - split; cbn; discriminate.
Qed.

Lemma engines_created_app (a b : list Event) :
  engines_created (a ++ b) = engines_created a + engines_created b.
Proof. unfold engines_created. rewrite List.filter_app, length_app. lia. Qed.

Lemma engines_created_prologue (args : Args) (s : State) :
  engines_created (prologue_events args s) = 0.
Proof.
  unfold prologue_events.
  destruct (val_truthy (arg_progress args)), (recognitionTask s); reflexivity.
Qed.

Lemma engines_created_report (t : nat) (cb : JsVal) (ev : ProgressEvent) :
  engines_created (report_events t cb ev) = 0.
Proof. unfold report_events. destruct (isFunction cb); reflexivity. Qed.

Lemma engines_created_step (p : Platform) (o : Op) (s : State) :
  engines_created (trace s) = (if truthy (audioEngine s) then 1 else 0) ->
  engines_created (trace (step p o s))
    = (if truthy (audioEngine (step p o s)) then 1 else 0).
Proof.
  intros Hs. destruct o as [locale|args| |t result error]; cbn [step].
  - rewrite initialize_eq; cbn [snd trace audioEngine].
    rewrite engines_created_app, Hs. cbn. lia.
  - rewrite startRecognition_eq.
    destruct (String.eqb (effective_type args) SOURCE_TYPE_URL).
    + rewrite startRecognition_url_eq. prologue_fields args s.
      destruct (arg_url args) as [u|]; cbv zeta;
        [ destruct (plat_url_request p _ _) | ];
        cbn [snd trace audioEngine after_prologue];
        rewrite ?engines_created_app, Hs, engines_created_prologue;
        try destruct (truthy (speechRecognizer s)); cbn; lia.
    + destruct (String.eqb (effective_type args) SOURCE_TYPE_MICROPHONE).
      * rewrite startRecognition_microphone_eq; cbv zeta.
        prologue_fields args s.
        destruct (truthy (inputNode (engine_in_use p s)));
          [ destruct (truthy (speechRecognizer s)) | ];
          cbn [snd trace audioEngine truthy];
          rewrite ?engines_created_app, Hs, engines_created_prologue;
          destruct (truthy (audioEngine s)); cbn; lia.
      * js_unfold; cbn -[engines_created prologue_events].
        rewrite ?engines_created_app, Hs, engines_created_prologue.
        cbn. lia.
  - rewrite stopRecognition_eq; cbn [snd trace audioEngine].
    rewrite engines_created_app, Hs, truthy_and_then.
    destruct (audioEngine s) as [| |e]; cbn;
      [ destruct (recognitionTask s); cbn; lia
      | destruct (recognitionTask s); cbn; lia | ].
    destruct (isRunning e), (holds_url_request s), (truthy (request s)),
      (tap_flag e); cbn; lia.
  - rewrite result_handler_eq.
    destruct (handlers s !! t) as [c|]; [ | exact Hs ].
    destruct (c_kind c).
    + rewrite url_handler_eq; cbn [snd].
      destruct (truthy (recognitionTask s)); [ | exact Hs ].
      destruct (is_canceling (plat_task_state p)); cbv zeta;
        cbn [trace audioEngine];
        rewrite engines_created_app, Hs;
        [ change (?a :: ?l) with ([a] ++ l); rewrite engines_created_app | ];
        rewrite engines_created_report; cbn; lia.
    + rewrite microphone_handler_eq; cbv zeta; cbn [snd trace audioEngine].
      rewrite !engines_created_app, Hs, engines_created_report.
      destruct (truthy error || is_true (and_then result isFinal));
        rewrite ?truthy_and_then; [ | cbn; lia ].
      destruct (audioEngine s) as [| |e]; cbn;
        [ destruct (truthy (request s)), (holds_url_request s); cbn; lia
        | destruct (truthy (request s)), (holds_url_request s); cbn; lia | ].
      destruct (isRunning e), (truthy (request s)), (holds_url_request s),
        (tap_flag e); cbn; lia.
Qed.

(** X10.  The audio engine is created lazily and at most once: whatever is
    called, starting from the freshly loaded module, [new AVAudioEngine()]
    has run exactly once if an engine is held and never otherwise. *)
Theorem audio_engine_created_once :
  forall ops : list (Platform * Op),
    engines_created (trace (run ops initial))
      = (if truthy (audioEngine (run ops initial)) then 1 else 0).
Proof.
  intros ops.
  apply (run_invariant
           (fun s => engines_created (trace s)
                     = (if truthy (audioEngine s) then 1 else 0))).
  - intros p o s. apply engines_created_step.
  - reflexivity.
Qed.

Lemma engine_stopped_input_node (e : AudioEngine) :
  truthy (inputNode (engine_stopped e)) = truthy (inputNode e).
Proof.
  unfold engine_stopped, tap_flag; cbn.
  destruct (inputNode e) as [| |[[| |[|]]]]; reflexivity.
Qed.

Lemma engine_halted_input_node (e : AudioEngine) :
  truthy (inputNode (engine_halted e)) = truthy (inputNode e).
Proof. reflexivity. Qed.

Lemma engine_kept_step (p : Platform) (o : Op) (s : State) (e : AudioEngine) :
  audioEngine s = Obj e ->
  exists e',
    audioEngine (step p o s) = Obj e' /\
    truthy (inputNode e') = truthy (inputNode e).
Proof.
  intros He. destruct o as [locale|args| |t result error]; cbn [step].
  - rewrite initialize_eq; cbn. eauto.
  - rewrite startRecognition_eq.
    destruct (String.eqb (effective_type args) SOURCE_TYPE_URL).
    + rewrite startRecognition_url_eq. prologue_fields args s.
      destruct (arg_url args) as [u|]; cbv zeta;
        [ destruct (plat_url_request p _ _) | ]; cbn; eauto.
    + destruct (String.eqb (effective_type args) SOURCE_TYPE_MICROPHONE).
      * rewrite startRecognition_microphone_eq; cbv zeta.
        prologue_fields args s.
        unfold engine_in_use. rewrite He.
        destruct (truthy (inputNode e)) eqn:Hn;
          [ destruct (truthy (speechRecognizer s)) | ]; cbn; eauto.
      * js_unfold; cbn. eauto.
  - rewrite stopRecognition_eq; cbn. rewrite He; cbn.
    eexists; split; [reflexivity | ].
    destruct (holds_url_request s);
      [ apply engine_halted_input_node | apply engine_stopped_input_node ].
  - rewrite result_handler_eq.
    destruct (handlers s !! t) as [c|]; [ | eauto ].
    destruct (c_kind c).
    + rewrite url_handler_eq; cbn [snd].
      destruct (truthy (recognitionTask s)); [ | eauto ].
      destruct (is_canceling (plat_task_state p)); cbn; eauto.
    + rewrite microphone_handler_eq; cbv zeta; cbn.
      destruct (truthy error || is_true (and_then result isFinal));
        [ | eauto ].
      rewrite He; cbn.
      eexists; split; [reflexivity | apply engine_stopped_input_node].
Qed.

Lemma engine_kept_run (ops : list (Platform * Op)) :
  forall (s : State) (e : AudioEngine),
    audioEngine s = Obj e ->
    exists e',
      audioEngine (run ops s) = Obj e' /\
      truthy (inputNode e') = truthy (inputNode e).
Proof.
  induction ops as [|[p o] ops IH]; intros s e He; [eauto|].
  cbn [run].
  destruct (engine_kept_step p o s e He) as (e1 & H1 & Hn1).
  destruct (IH _ _ H1) as (e2 & H2 & Hn2).
  exists e2. split; [exact H2 | congruence].
Qed.

(** X11.  The audio engine, once held, is never dropped and keeps having (or
    lacking) its input node, whatever is called afterwards.  So from the
    first microphone-mode call on, [stopRecognition] always takes its engine
    branch: it creates and cancels no task, also when the session in
    progress is a url one. *)
Theorem engine_kept_and_stop_never_cancels :
  forall (ops : list (Platform * Op)) (p : Platform) (s : State)
         (e : AudioEngine),
    audioEngine s = Obj e ->
    (exists e',
       audioEngine (run ops s) = Obj e' /\
       truthy (inputNode e') = truthy (inputNode e)) /\
    task_events (trace (step p OpStop (run ops s)))
      = task_events (trace (run ops s)).
Proof.
  intros ops p s e He.
  destruct (engine_kept_run ops s e He) as (e' & He' & Hn).
  split; [eauto|].
  cbn [step]. rewrite stopRecognition_eq; cbn [snd trace].
  rewrite He', task_events_app.
  destruct (isRunning e'), (holds_url_request (run ops s)),
    (truthy (request (run ops s))), (tap_flag e');
    cbn; rewrite app_nil_r; reflexivity.
Qed.

Lemma engine_kept_and_stop_never_cancels_witness :
  truthy (audioEngine microphone_session) = true /\
  live (trace (run [(platform_ok, OpStart (url_args 2))] microphone_session))
    = [1] /\
  task_events
    (trace (step platform_ok OpStop
              (run [(platform_ok, OpStart (url_args 2))] microphone_session)))
    = task_events
        (trace (run [(platform_ok, OpStart (url_args 2))]
                  microphone_session)).
Proof.
  split; [reflexivity | split; [reflexivity | ] ].
  exact (proj2 (engine_kept_and_stop_never_cancels
                  [(platform_ok, OpStart (url_args 2))] platform_ok
                  microphone_session
                  {| inputNode := Obj {| tapInstalled := Obj true |};
                     isRunning := true |}
                  eq_refl)).
Defined.

(** ** More on [startRecognition] *)

Lemma isFunction_or_null (v : JsVal) :
  isFunction (or_null v) = true -> or_null v = v.
Proof.
  unfold or_null. destruct (val_truthy v); [reflexivity | discriminate].
Qed.

(** X12.  The progress callbacks of a call go to the function supplied in
    that call and to nothing else: whatever follows, every callback made by
    the handler the call registered calls [args.progress], which is then a
    function; if [args.progress] is not a function, that handler never
    makes a callback. *)
Theorem progress_goes_to_supplied_function :
  forall (p : Platform) (args : Args) (s : State)
         (ops : list (Platform * Op)) (c : Closure),
    let s' := snd (startRecognition p args s) in
    handlers s' !! length (handlers s) = Some c ->
    exists new,
      progress_events (trace (run ops s')) = progress_events (trace s) ++ new /\
      forall cb ev,
        In (length (handlers s), cb, ev) new ->
        cb = arg_progress args /\ isFunction (arg_progress args) = true.
Proof.
  intros p args s ops c s' Hc. subst s'.
  destruct (startRecognition_shape p args s) as (_ & Hp & Hh & _).
  assert (Hcb : c_progressCallback c = or_null (arg_progress args)).
  { rewrite Hh in Hc.
    destruct (creates p args s) as [k|].
    - rewrite lookup_app_r, Nat.sub_diag in Hc by lia.
      cbn in Hc. injection Hc as <-. reflexivity.
    - rewrite app_nil_r in Hc.
      apply lookup_lt_Some in Hc. lia. }
  destruct (run_progress ops _ _ _ Hc) as (new & Hnew & Hall).
  exists new. rewrite Hnew, Hp. split; [reflexivity|].
  intros cb ev Hin. destruct (Hall cb ev Hin) as (E & Hf & _).
  rewrite E, Hcb in *.
  pose proof (isFunction_or_null _ Hf) as Hv.
  rewrite Hv in *. split; [reflexivity | exact Hf].
Qed.

Lemma progress_goes_to_supplied_function_witness :
  handlers (snd (startRecognition platform_ok deaf_args initial)) !! 0
    = Some {| c_kind := UrlHandler; c_instance := VNum 9;
              c_progressCallback := VStr "notify" |} /\
  exists new,
    progress_events
      (trace (run two_results
                (snd (startRecognition platform_ok deaf_args initial))))
      = [] ++ new /\
    forall cb ev,
      In (0, cb, ev) new ->
      cb = VStr "notify" /\ isFunction (VStr "notify") = true.
Proof.
  split; [reflexivity|].
  exact (progress_goes_to_supplied_function
           platform_ok deaf_args initial two_results
           {| c_kind := UrlHandler; c_instance := VNum 9;
              c_progressCallback := VStr "notify" |} eq_refl).
Defined.

Lemma effective_type_ext (args args' : Args) :
  arg_type args = arg_type args' ->
  arg_url args = arg_url args' ->
  effective_type args = effective_type args'.
Proof. unfold effective_type. intros -> ->. reflexivity. Qed.

(** X13.  Whether a call succeeds does not depend on the callback or on the
    id: two calls that agree on [type] and [url] return the same value (or
    raise the same error) and leave the same engine, request, task and
    recognizer; a missing callback costs a warning, nothing else. *)
Theorem startRecognition_outcome_ignores_progress_and_id :
  forall (p : Platform) (args args' : Args) (s : State),
    arg_type args = arg_type args' ->
    arg_url args = arg_url args' ->
    fst (startRecognition p args s) = fst (startRecognition p args' s) /\
    variables (snd (startRecognition p args s))
      = variables (snd (startRecognition p args' s)).
Proof.
  intros p args args' s Ht Hu.
  rewrite !startRecognition_eq.
  rewrite <- (effective_type_ext args args' Ht Hu).
  unfold variables.
  destruct (String.eqb (effective_type args) SOURCE_TYPE_URL).
  - rewrite !startRecognition_url_eq. rewrite <- Hu.
    destruct (arg_url args) as [u|]; cbv zeta;
      [ destruct (plat_url_request p _ _) | ]; cbn; split; reflexivity.
  - destruct (String.eqb (effective_type args) SOURCE_TYPE_MICROPHONE).
    + rewrite !startRecognition_microphone_eq; cbv zeta.
      prologue_fields args s. prologue_fields args' s.
      destruct (truthy (inputNode (engine_in_use p s)));
        [ destruct (truthy (speechRecognizer s)) | ];
        cbn; split; reflexivity.
    + js_unfold; cbn. split; reflexivity.
Qed.

Lemma startRecognition_outcome_ignores_progress_and_id_witness :
  arg_type (url_args 1) = arg_type deaf_args /\
  arg_url (url_args 1) = arg_url deaf_args /\
  fst (startRecognition platform_ok (url_args 1) url_session)
    = fst (startRecognition platform_ok deaf_args url_session) /\
  variables (snd (startRecognition platform_ok (url_args 1) url_session))
    = variables (snd (startRecognition platform_ok deaf_args url_session)).
Proof.
  split; [reflexivity | split; [reflexivity | ] ].
  apply (startRecognition_outcome_ignores_progress_and_id
           platform_ok (url_args 1) deaf_args url_session);
    reflexivity.
Defined.

(** X14.  A call that names the url type but gives no url does not return
    false: it raises a TypeError at [args.url.split], after the teardown, so
    the previous task is already cancelled and nothing is started. *)
Theorem url_type_without_url_throws :
  forall (p : Platform) (args : Args) (s : State),
    effective_type args = SOURCE_TYPE_URL ->
    arg_url args = None ->
    startRecognition p args s
      = (TypeError "args.url.split", after_prologue args s) /\
    arg_type args = Some SOURCE_TYPE_URL.
Proof.
  intros p args s Ht Hu. split.
  - rewrite startRecognition_eq, Ht.
    change (String.eqb SOURCE_TYPE_URL SOURCE_TYPE_URL) with true.
    cbv iota. rewrite startRecognition_url_eq, Hu. reflexivity.
  - unfold effective_type in Ht. rewrite Hu in Ht. cbn in Ht.
    rewrite andb_false_r in Ht.
    destruct (arg_type args) as [ty|]; cbn in Ht; [ | discriminate ].
    destruct (String.eqb ty "") eqn:E; cbn in Ht; [discriminate|].
    rewrite Ht. reflexivity.
Qed.

Lemma url_type_without_url_throws_witness :
  effective_type {| arg_progress := VFun 0; arg_type := Some "url";
                    arg_id := VNum 3; arg_url := None |} = SOURCE_TYPE_URL /\
  fst (startRecognition platform_ok
         {| arg_progress := VFun 0; arg_type := Some "url";
            arg_id := VNum 3; arg_url := None |} url_session)
    = TypeError "args.url.split" /\
  live (trace (snd (startRecognition platform_ok
                      {| arg_progress := VFun 0; arg_type := Some "url";
                         arg_id := VNum 3; arg_url := None |} url_session)))
    = [].
Proof.
  split; [reflexivity|].
  rewrite (proj1 (url_type_without_url_throws platform_ok
                    {| arg_progress := VFun 0; arg_type := Some "url";
                       arg_id := VNum 3; arg_url := None |}
                    url_session eq_refl eq_refl)).
  split; reflexivity.
Defined.

(** ** More on the handlers and [stopRecognition] *)

Lemma nothing_new (t : nat) (tr : list Event) :
  exists new,
    tr = tr ++ new /\
    length new <= 1 /\
    forall e, In e new ->
      exists cb ev, e = Progress t cb ev /\ is_true (ev_finished ev) = false.
Proof.
  exists []. rewrite app_nil_r. repeat split; [cbn; lia | intros e []].
Qed.

Lemma one_report (t : nat) (cb : JsVal) (ev : ProgressEvent)
    (tr : list Event) :
  is_true (ev_finished ev) = false ->
  exists new,
    tr ++ report_events t cb ev = tr ++ new /\
    length new <= 1 /\
    forall e, In e new ->
      exists cb ev, e = Progress t cb ev /\ is_true (ev_finished ev) = false.
Proof.
  intros Hf. eexists; split; [reflexivity|].
  unfold report_events. destruct (isFunction cb); cbn.
  - split; [lia|]. intros e [<-|[]]. eauto.
  - split; [lia|]. intros e [].
Qed.

(** X15.  A result that is neither final nor an error, delivered while the
    platform does not report a cancellation, changes none of the module's
    variables and no handler, whichever handler receives it: at most one
    progress callback is made, and it does not say finished. *)
Theorem partial_result_changes_nothing :
  forall (p : Platform) (t : nat) (result : Ref Result) (error : Ref nat)
         (s : State),
    truthy error = false ->
    is_true (and_then result isFinal) = false ->
    is_canceling (plat_task_state p) = false ->
    let s' := step p (OpResult t result error) s in
    variables s' = variables s /\
    handlers s' = handlers s /\
    exists new,
      trace s' = trace s ++ new /\
      length new <= 1 /\
      forall e, In e new ->
        exists cb ev, e = Progress t cb ev /\ is_true (ev_finished ev) = false.
Proof.
  intros p t result error s He Hf Hc; cbv zeta. cbn [step].
  rewrite result_handler_eq. unfold variables.
  destruct (handlers s !! t) as [c|];
    [ | split; [reflexivity | split; [reflexivity | apply nothing_new] ] ].
  destruct (c_kind c).
  - rewrite url_handler_eq, Hc, He, Hf; cbn [snd orb].
    destruct (truthy (recognitionTask s));
      [ | split; [reflexivity | split; [reflexivity | apply nothing_new] ] ].
    cbn. split; [reflexivity | split; [reflexivity | ] ].
    apply one_report. exact Hf.
  - rewrite microphone_handler_eq, He, Hf; cbv zeta; cbn.
    split; [reflexivity | split; [reflexivity | ] ].
    rewrite app_nil_r. apply one_report. exact Hf.
Qed.

Lemma partial_result_changes_nothing_witness :
  is_true (and_then (Obj partial_result) isFinal) = false /\
  variables (step platform_ok (OpResult 0 (Obj partial_result) Null)
               microphone_session)
    = variables microphone_session /\
  trace (step platform_ok (OpResult 0 (Obj partial_result) Null)
           microphone_session)
    = trace microphone_session
      ++ [Progress 0 (VFun 0)
            {| ev_id := VNum 1; ev_error := Null; ev_value := Obj "hello";
               ev_state := Obj SFSpeechRecognitionTaskStateRunning;
               ev_finished := Obj false |}].
Proof.
  split; [reflexivity|].
  split; [ | reflexivity ].
  exact (proj1 (partial_result_changes_nothing
                  platform_ok 0 (Obj partial_result) Null microphone_session
                  eq_refl eq_refl eq_refl)).
Defined.

(** X16.  Once no task is tracked, the url handler ignores whatever the
    platform still delivers: no callback, no log line, no change at all.
    The same holds for a delivery to a task that was never created. *)
Theorem url_handler_ignores_late_results :
  forall (p : Platform) (t : nat) (result : Ref Result) (error : Ref nat)
         (s : State),
    truthy (recognitionTask s) = false ->
    (forall c, handlers s !! t = Some c -> c_kind c = UrlHandler) ->
    step p (OpResult t result error) s = s.
Proof.
  intros p t result error s Ht Hk. cbn [step].
  rewrite result_handler_eq.
  destruct (handlers s !! t) as [c|] eqn:E; [ | reflexivity ].
  rewrite (Hk c eq_refl), url_handler_eq, Ht. reflexivity.
Qed.

Lemma url_handler_ignores_late_results_witness :
  truthy (recognitionTask
            (step platform_ok (OpResult 0 (Obj final_result) Null)
               url_session)) = false /\
  step platform_ok (OpResult 0 (Obj final_result) Null)
    (step platform_ok (OpResult 0 (Obj final_result) Null) url_session)
    = step platform_ok (OpResult 0 (Obj final_result) Null) url_session.
Proof.
  split; [reflexivity|].
  apply (url_handler_ignores_late_results platform_ok 0
           (Obj final_result) Null
           (step platform_ok (OpResult 0 (Obj final_result) Null)
              url_session)).
  - reflexivity.
  - intros c H. vm_compute in H. injection H as <-. reflexivity.
Defined.

(** X17.  A second [stopRecognition] right after a first one completes as
    the first did (normally, or with the same TypeError of
    [request.endAudio()] when an engine and a url request are held), changes
    no variable, stops no engine and removes no tap.  With an engine it only
    ends the audio of a held buffer request again, and makes no call at all
    when the held request is a url one; without an engine it only cancels
    the tracked task again. *)
Theorem stopRecognition_twice :
  forall s : State,
    let s1 := snd (stopRecognition s) in
    let s2 := snd (stopRecognition s1) in
    fst (stopRecognition s1) = fst (stopRecognition s) /\
    variables s2 = variables s1 /\
    handlers s2 = handlers s1 /\
    trace s2 =
      trace s1
      ++ match audioEngine s with
         | Obj _ =>
             if truthy (request s) && negb (holds_url_request s)
             then [EndAudio] else []
         | _ =>
             match recognitionTask s with
             | Obj t => [TaskCancel (task_id t)]
             | _ => []
             end
         end.
Proof.
  intros s; cbv zeta. rewrite !stopRecognition_eq. unfold variables; cbn.
  unfold holds_url_request; cbn.
  unfold engine_stopped, engine_halted, tap_flag.
  destruct (audioEngine s) as [| |[[| |[[| |[|]]]] [|]]],
    (request s) as [| |[[name ext|] partial]], (recognitionTask s);
    repeat split.
Qed.

Lemma microphone_closure_kept_step (p : Platform) (o : Op) (s : State)
    (t : nat) (c : Closure) :
  handlers s !! t = Some c ->
  c_kind c = MicrophoneHandler ->
  handlers (step p o s) !! t = Some c.
Proof.
  intros Ht Hk. destruct o as [locale|args| |t0 result error]; cbn [step].
  - rewrite initialize_eq. exact Ht.
  - destruct (startRecognition_shape p args s) as (_ & _ & -> & _).
    apply lookup_app_l_Some. exact Ht.
  - rewrite stopRecognition_eq. exact Ht.
  - rewrite result_handler_eq.
    destruct (handlers s !! t0) as [c0|] eqn:H0; [ | exact Ht ].
    destruct (c_kind c0) eqn:K0.
    + destruct (url_handler_handlers p t0 c0 result error s) as [->| ->];
        [exact Ht|].
      unfold clear_progressCallback. rewrite H0. cbn.
      rewrite list_lookup_insert_ne; [exact Ht|].
      intros ->. congruence.
    + rewrite microphone_handler_handlers. exact Ht.
Qed.

Lemma microphone_closure_kept_run (ops : list (Platform * Op)) :
  forall (s : State) (t : nat) (c : Closure),
    handlers s !! t = Some c ->
    c_kind c = MicrophoneHandler ->
    handlers (run ops s) !! t = Some c.
Proof.
  induction ops as [|[p o] ops IH]; intros s t c Ht Hk; [exact Ht|].
  cbn [run]. apply IH; [ | exact Hk ].
  apply microphone_closure_kept_step; assumption.
Qed.

(** X18.  A microphone handler is never silenced.  Its closure is changed by
    no call, and on every delivery, final or not, with or without a tracked
    task, it calls its progress function with its own id; so results the
    platform delivers late for an old microphone session still reach that
    session's callback. *)
Theorem microphone_handler_always_reports :
  forall (ops : list (Platform * Op)) (p : Platform) (s : State) (t : nat)
         (c : Closure) (result : Ref Result) (error : Ref nat),
    handlers s !! t = Some c ->
    c_kind c = MicrophoneHandler ->
    isFunction (c_progressCallback c) = true ->
    let s1 := run ops s in
    handlers s1 !! t = Some c /\
    progress_events (trace (step p (OpResult t result error) s1))
      = progress_events (trace s1)
        ++ [(t, c_progressCallback c,
             {| ev_id := c_instance c;
                ev_error := error;
                ev_value := and_then result formattedString;
                ev_state := and_then (recognitionTask s1)
                              (fun _ => plat_task_state p);
                ev_finished := and_then result isFinal |})].
Proof.
  intros ops p s t c result error Ht Hk Hf; cbv zeta.
  pose proof (microphone_closure_kept_run ops s t c Ht Hk) as H1.
  split; [exact H1|].
  cbn [step]. rewrite result_handler_eq, H1, Hk, microphone_handler_eq.
  cbv zeta; cbn [snd trace].
  match goal with
  | |- progress_events (_ ++ _ ++ ?X) = _ =>
      assert (HX : progress_events X = [])
  end.
  { destruct (truthy error || is_true (and_then result isFinal));
      [ | reflexivity ].
    destruct (audioEngine (run ops s)) as [| |e]; cbn;
      try destruct (tap_flag e); try destruct (isRunning e);
      destruct (truthy (request (run ops s))),
        (holds_url_request (run ops s)); reflexivity. }
  rewrite !progress_events_app, HX, app_nil_r.
  unfold report_events. rewrite Hf. reflexivity.
Qed.

Lemma microphone_handler_always_reports_witness :
  handlers microphone_session !! 0
    = Some {| c_kind := MicrophoneHandler; c_instance := VNum 1;
              c_progressCallback := VFun 0 |} /\
  recognitionTask
    (run [(platform_ok, OpResult 0 (Obj final_result) Null)]
       microphone_session) = Null /\
  progress_events
    (trace (step platform_ok (OpResult 0 (Obj partial_result) Null)
              (run [(platform_ok, OpResult 0 (Obj final_result) Null)]
                 microphone_session)))
    = progress_events
        (trace (run [(platform_ok, OpResult 0 (Obj final_result) Null)]
                  microphone_session))
      ++ [(0, VFun 0,
           {| ev_id := VNum 1; ev_error := Null; ev_value := Obj "hello";
              ev_state := Null; ev_finished := Obj false |})].
Proof.
  split; [reflexivity | split; [reflexivity | ] ].
  exact (proj2 (microphone_handler_always_reports
                  [(platform_ok, OpResult 0 (Obj final_result) Null)]
                  platform_ok microphone_session 0
                  {| c_kind := MicrophoneHandler; c_instance := VNum 1;
                     c_progressCallback := VFun 0 |}
                  (Obj partial_result) Null eq_refl eq_refl eq_refl)).
Defined.

(** X19.  What a successful call leaves.  If [startRecognition] returns true
    in microphone mode, the engine did start and is running, [tapInstalled]
    is true, and the buffer request and the new task are held; if it returns
    true in url mode, the audio engine is exactly as before and the url
    request and the new task are held. *)
Theorem startRecognition_success :
  forall (p : Platform) (args : Args) (s : State),
    fst (startRecognition p args s) = Normal true ->
    let s' := snd (startRecognition p args s) in
    exists rq,
      request s' = Obj rq /\
      recognitionTask s'
        = Obj {| task_id := length (handlers s); task_request := rq |} /\
      handlers s' = handlers s ++ [closure_of args (handler_for rq)] /\
      match handler_for rq with
      | MicrophoneHandler =>
          effective_type args = SOURCE_TYPE_MICROPHONE /\
          plat_engine_start p = true /\
          audioEngine s'
            = Obj {| inputNode := Obj {| tapInstalled := Obj true |};
                     isRunning := true |}
      | UrlHandler =>
          effective_type args = SOURCE_TYPE_URL /\
          audioEngine s' = audioEngine s
      end.
Proof.
  intros p args s; cbv zeta.
  rewrite startRecognition_eq. unfold closure_of.
  destruct (String.eqb_spec (effective_type args) SOURCE_TYPE_URL)
    as [Hu|Hu].
  - rewrite startRecognition_url_eq. prologue_fields args s.
    destruct (arg_url args) as [u|]; cbv zeta;
      [ destruct (plat_url_request p _ _) | ]; cbn [fst snd];
      try discriminate.
    intros _. eexists; cbn. repeat split. exact Hu.
  - destruct (String.eqb_spec (effective_type args) SOURCE_TYPE_MICROPHONE)
      as [Hm|Hm].
    + rewrite startRecognition_microphone_eq; cbv zeta.
      prologue_fields args s.
      destruct (truthy (inputNode (engine_in_use p s)));
        [ destruct (truthy (speechRecognizer s)) | ]; cbn [fst snd];
        try discriminate.
      intros [= Hs]. rewrite Hs. eexists; cbn. repeat split. exact Hm.
    + js_unfold; cbn. discriminate.
Qed.

Lemma startRecognition_success_witness :
  fst (startRecognition platform_ok (microphone_args 1)
         (snd (initialize platform_ok None initial))) = Normal true /\
  exists rq,
    request microphone_session = Obj rq /\
    recognitionTask microphone_session
      = Obj {| task_id := 0; task_request := rq |} /\
    handler_for rq = MicrophoneHandler.
Proof.
  split; [reflexivity|].
  destruct (startRecognition_success platform_ok (microphone_args 1)
              (snd (initialize platform_ok None initial)) eq_refl)
    as (rq & H1 & H2 & _).
  exists rq. split; [exact H1 | split; [exact H2 | ] ].
  vm_compute in H1. injection H1 as <-. reflexivity.
Defined.

(** ** A whole microphone session *)

Lemma tap_events_app (a b : list Event) :
  tap_events (a ++ b) = tap_events a ++ tap_events b.
Proof. apply List.filter_app. Qed.

Lemma tap_events_prologue (args : Args) (s : State) :
  tap_events (prologue_events args s) = [].
Proof.
  unfold prologue_events.
  destruct (val_truthy (arg_progress args)), (recognitionTask s); reflexivity.
Qed.

Lemma tap_events_report (t : nat) (cb : JsVal) (ev : ProgressEvent) :
  tap_events (report_events t cb ev) = [].
Proof. unfold report_events. destruct (isFunction cb); reflexivity. Qed.

Lemma isFunction_or_null_eq (v : JsVal) :
  isFunction (or_null v) = isFunction v.
Proof.
  unfold or_null.
  destruct v as [| |b|n|str|f|o]; cbn; try reflexivity;
    [ destruct b | destruct (n =? 0)%Z | destruct (String.eqb str EmptyString) ];
    reflexivity.
Qed.

Lemma or_null_function (v : JsVal) :
  isFunction v = true -> or_null v = v.
Proof. destruct v; try discriminate. reflexivity. Qed.

(** X20.  A microphone session from start to end.  A successful
    microphone-mode call, then [stopRecognition], then the final result the
    platform delivers to the session's handler: the tap was removed,
    installed and removed, in this order and nothing more; the engine is
    held and not running, [tapInstalled] is false, no task is tracked, and
    the final result was reported once with the id of the call. *)
Theorem microphone_session_start_stop_final :
  forall (p p2 p3 : Platform) (args : Args) (s : State) (rs : Result),
    effective_type args = SOURCE_TYPE_MICROPHONE ->
    has_input_node p s = true ->
    truthy (speechRecognizer s) = true ->
    plat_engine_start p = true ->
    isFinal rs = true ->
    let t := length (handlers s) in
    let s3 := run [(p, OpStart args); (p2, OpStop);
                   (p3, OpResult t (Obj rs) Null)] s in
    tap_events (trace s3)
      = tap_events (trace s) ++ [RemoveTap; InstallTap; RemoveTap] /\
    audioEngine s3
      = Obj {| inputNode := Obj {| tapInstalled := Obj false |};
               isRunning := false |} /\
    recognitionTask s3 = Null /\
    progress_events (trace s3)
      = progress_events (trace s)
        ++ (if isFunction (arg_progress args)
            then [(t, arg_progress args,
                   {| ev_id := arg_id args;
                      ev_error := Null;
                      ev_value := Obj (formattedString rs);
                      ev_state := Obj (plat_task_state p3);
                      ev_finished := Obj true |})]
            else []).
Proof.
  intros p p2 p3 args s rs Ht Hn Hsr Hstart Hfin; cbv zeta.
  cbn [run step].
  rewrite startRecognition_eq, Ht.
  change (String.eqb SOURCE_TYPE_MICROPHONE SOURCE_TYPE_URL) with false.
  change (String.eqb SOURCE_TYPE_MICROPHONE SOURCE_TYPE_MICROPHONE) with true.
  cbv iota. rewrite startRecognition_microphone_eq; cbv zeta.
  prologue_fields args s.
  rewrite input_node_in_use, Hn, Hsr, Hstart. cbn [snd orb].
  rewrite stopRecognition_eq. cbn [snd audioEngine and_then request truthy
    recognitionTask speechRecognizer handlers trace isRunning].
  rewrite result_handler_eq. cbn [handlers].
  rewrite lookup_app_r, Nat.sub_diag by lia. cbn [lookup list_lookup c_kind].
  rewrite microphone_handler_eq. cbv zeta.
  cbn [snd audioEngine and_then request truthy recognitionTask
       speechRecognizer handlers trace isRunning is_true isFinal orb
       c_progressCallback c_instance formattedString].
  rewrite Hfin. cbn [is_true orb].
  unfold engine_stopped, tap_flag; cbn.
  rewrite !tap_events_app, !progress_events_app,
    tap_events_prologue, progress_events_prologue,
    tap_events_report.
  unfold report_events.
  rewrite isFunction_or_null_eq.
  destruct (truthy (audioEngine s)), (isFunction (arg_progress args)) eqn:Hf;
    cbn; rewrite ?app_nil_r; repeat split.
  all: rewrite ?(or_null_function _ Hf), <- ?app_assoc; reflexivity.
Qed.

Lemma microphone_session_start_stop_final_witness :
  has_input_node platform_ok (snd (initialize platform_ok None initial))
    = true /\
  isFinal final_result = true /\
  tap_events
    (trace (run [(platform_ok, OpStart (microphone_args 1));
                 (platform_ok, OpStop);
                 (platform_ok, OpResult 0 (Obj final_result) Null)]
              (snd (initialize platform_ok None initial))))
    = tap_events (trace (snd (initialize platform_ok None initial)))
      ++ [RemoveTap; InstallTap; RemoveTap].
Proof.
  split; [reflexivity | split; [reflexivity | ] ].
  exact (proj1 (microphone_session_start_stop_final
                  platform_ok platform_ok platform_ok (microphone_args 1)
                  (snd (initialize platform_ok None initial)) final_result
                  eq_refl eq_refl eq_refl eq_refl eq_refl)).
Defined.


(** ** A whole url session, stopped by the caller *)

Lemma report_events_or_null (t : nat) (v : JsVal)
    (ev : ProgressEvent) :
  report_events t (or_null v) ev
    = if isFunction v then [Progress t v ev] else [].
Proof.
  unfold report_events. rewrite isFunction_or_null_eq.
  destruct (isFunction v) eqn:Hf; [ | reflexivity ].
  rewrite (or_null_function _ Hf). reflexivity.
Qed.

(** X21.  A url session stopped before any microphone session existed.  A
    successful url-mode call, then [stopRecognition] (no engine is held, so
    the task is cancelled), then the delivery that finds the task being
    cancelled: the task was created and cancelled once, the last callback
    says finished, and afterwards no task, no request and no callback is
    held. *)
Theorem url_session_start_stop_cancelled :
  forall (p p2 p3 : Platform) (args : Args) (s : State) (u : string)
         (result : Ref Result) (error : Ref nat),
    effective_type args = SOURCE_TYPE_URL ->
    arg_url args = Some u ->
    plat_url_request p (fst (resource_of u)) (snd (resource_of u)) = true ->
    truthy (audioEngine s) = false ->
    is_canceling (plat_task_state p3) = true ->
    let t := length (handlers s) in
    let s3 := run [(p, OpStart args); (p2, OpStop);
                   (p3, OpResult t result error)] s in
    task_events (trace s3)
      = task_events (trace s)
        ++ match recognitionTask s with
           | Obj t0 => [TaskCancel (task_id t0)]
           | _ => []
           end
        ++ [TaskCreate t; TaskCancel t] /\
    recognitionTask s3 = Null /\
    request s3 = Null /\
    handlers s3 !! t
      = Some {| c_kind := UrlHandler; c_instance := arg_id args;
                c_progressCallback := VNull |} /\
    progress_events (trace s3)
      = progress_events (trace s)
        ++ (if isFunction (arg_progress args)
            then [(t, arg_progress args,
                   {| ev_id := arg_id args;
                      ev_error := error;
                      ev_value := and_then result formattedString;
                      ev_state := Obj (plat_task_state p3);
                      ev_finished := Obj true |})]
            else []).
Proof.
  intros p p2 p3 args s u result error Ht Hu Hreq Heng Hcan; cbv zeta.
  cbn [run step].
  rewrite startRecognition_eq, Ht.
  change (String.eqb SOURCE_TYPE_URL SOURCE_TYPE_URL) with true.
  cbv iota. rewrite startRecognition_url_eq, Hu; cbv zeta.
  prologue_fields args s. rewrite Hreq. cbn [snd].
  rewrite stopRecognition_eq.
  cbn [snd audioEngine and_then request truthy recognitionTask
       speechRecognizer handlers trace task_id].
  rewrite result_handler_eq. cbn [handlers].
  rewrite lookup_app_r, Nat.sub_diag by lia. cbn [lookup list_lookup c_kind].
  rewrite url_handler_eq, Hcan.
  cbn [snd audioEngine request truthy recognitionTask speechRecognizer
       handlers trace c_progressCallback c_instance].
  unfold clear_progressCallback. cbn [handlers].
  rewrite lookup_app_r, Nat.sub_diag by lia. cbn [lookup list_lookup].
  cbn [set_handlers handlers c_kind c_instance].
  rewrite list_lookup_insert_eq by (rewrite length_app; cbn; lia).
  rewrite report_events_or_null.
  destruct (audioEngine s); try discriminate.
  all: rewrite !task_events_app, !progress_events_app,
         task_events_prologue, progress_events_prologue.
  all: unfold report_events.
  all: destruct (truthy (speechRecognizer s)),
         (isFunction (arg_progress args)) eqn:Hf; cbn.
  all: rewrite ?(or_null_function _ Hf), ?app_nil_r, <- ?app_assoc.
  all: repeat split.
Qed.

Lemma url_session_start_stop_cancelled_witness :
  truthy (audioEngine initial) = false /\
  is_canceling (plat_task_state platform_canceling) = true /\
  recognitionTask
    (run [(platform_ok, OpStart (url_args 1)); (platform_ok, OpStop);
          (platform_canceling, OpResult 0 Null (Obj 301))] initial) = Null /\
  task_events
    (trace (run [(platform_ok, OpStart (url_args 1)); (platform_ok, OpStop);
                 (platform_canceling, OpResult 0 Null (Obj 301))] initial))
    = [TaskCreate 0; TaskCancel 0].
Proof.
  destruct (url_session_start_stop_cancelled
              platform_ok platform_ok platform_canceling (url_args 1) initial
              "sounds/hello.mp3" Null (Obj 301)
              eq_refl eq_refl eq_refl eq_refl eq_refl)
    as (H1 & H2 & _).
  split; [reflexivity | split; [reflexivity | split; [exact H2 | exact H1] ] ].
Defined.

(** ** Guards and frames *)

(** X22.  Outside [startRecognition] every removal of the tap is guarded:
    [initialize], [stopRecognition] and both handlers never install a tap,
    and they remove it at most once, only when [tapInstalled] is true,
    leaving it false. *)
Theorem tap_removal_guarded_outside_start :
  forall (p : Platform) (o : Op) (s : State),
    match o with
    | OpStart _ => True
    | _ =>
        tap_events (trace (step p o s)) = tap_events (trace s) /\
        tap_of (step p o s) = tap_of s
        \/
        tap_events (trace (step p o s)) = tap_events (trace s) ++ [RemoveTap] /\
        tap_of s = true /\
        tap_of (step p o s) = false
    end.
Proof.
  intros p o s. destruct o as [locale|args| |t result error];
    [ | exact I | | ]; cbn [step].
  - left. rewrite initialize_eq; cbn [snd trace].
    rewrite tap_events_app. cbn. rewrite app_nil_r. split; reflexivity.
  - rewrite stopRecognition_eq; cbn [snd trace]. rewrite tap_events_app.
    unfold tap_of, engine_stopped, engine_halted, tap_flag; cbn.
    destruct (audioEngine s) as [| |[[| |[[| |[|]]]] [|]]],
      (holds_url_request s), (truthy (request s)), (recognitionTask s);
      cbn; rewrite ?app_nil_r; auto.
  - rewrite result_handler_eq.
    destruct (handlers s !! t) as [c|]; [ | left; split; reflexivity ].
    destruct (c_kind c).
    + left. rewrite url_handler_eq; cbn [snd].
      destruct (truthy (recognitionTask s)); [ | split; reflexivity ].
      destruct (is_canceling (plat_task_state p)); cbv zeta; cbn [trace];
        rewrite tap_events_app;
        [ change (?a :: ?l) with ([a] ++ l); rewrite tap_events_app | ];
        rewrite tap_events_report; cbn; rewrite app_nil_r; split; reflexivity.
    + rewrite microphone_handler_eq; cbv zeta; cbn [snd trace].
      rewrite !tap_events_app, tap_events_report.
      unfold tap_of, engine_stopped, tap_flag; cbn.
      destruct (truthy error || is_true (and_then result isFinal)),
        (audioEngine s) as [| |[[| |[[| |[|]]]] [|]]],
        (holds_url_request s), (truthy (request s));
        cbn; rewrite ?app_nil_r; auto.
Qed.

Lemma recognizer_kept_step (p : Platform) (o : Op) (s : State) :
  match o with OpInitialize _ => False | _ => True end ->
  truthy (speechRecognizer s) = true ->
  speechRecognizer (step p o s) = speechRecognizer s.
Proof.
  intros Ho Hsr. destruct o as [locale|args| |t result error];
    [contradiction | | | ]; cbn [step].
  - rewrite startRecognition_eq.
    destruct (String.eqb (effective_type args) SOURCE_TYPE_URL).
    + rewrite startRecognition_url_eq. prologue_fields args s.
      destruct (arg_url args) as [u|]; cbv zeta;
        [ destruct (plat_url_request p _ _) | ]; cbn;
        rewrite ?Hsr; reflexivity.
    + destruct (String.eqb (effective_type args) SOURCE_TYPE_MICROPHONE).
      * rewrite startRecognition_microphone_eq; cbv zeta.
        prologue_fields args s. rewrite Hsr.
        destruct (truthy (inputNode (engine_in_use p s))); reflexivity.
      * reflexivity.
  - rewrite stopRecognition_eq. reflexivity.
  - rewrite result_handler_eq.
    destruct (handlers s !! t) as [c|]; [ | reflexivity ].
    destruct (c_kind c).
    + rewrite url_handler_eq; cbn [snd].
      destruct (truthy (recognitionTask s)); [ | reflexivity ].
      destruct (is_canceling (plat_task_state p)); reflexivity.
    + rewrite microphone_handler_eq. reflexivity.
Qed.

(** X23.  A recognizer, once held, is replaced by [initialize] only: over
    any run without an [initialize] call (sessions started, stopped, results
    delivered) the recognizer is the same, so no session silently switches
    locale. *)
Theorem recognizer_changed_only_by_initialize :
  forall (ops : list (Platform * Op)) (s : State),
    truthy (speechRecognizer s) = true ->
    Forall (fun po => match snd po with
                      | OpInitialize _ => False
                      | _ => True
                      end) ops ->
    speechRecognizer (run ops s) = speechRecognizer s.
Proof.
  induction ops as [|[p o] ops IH]; intros s Hsr Hall; [reflexivity|].
  inversion Hall as [|? ? Ho Hrest]; subst. cbn in Ho. cbn [run].
  pose proof (recognizer_kept_step p o s Ho Hsr) as Hstep.
  rewrite IH; [exact Hstep | rewrite Hstep; exact Hsr | exact Hrest].
Qed.

Lemma recognizer_changed_only_by_initialize_witness :
  truthy (speechRecognizer microphone_session) = true /\
  speechRecognizer
    (run [(platform_ok, OpStart (url_args 2)); (platform_ok, OpStop);
          (platform_ok, OpResult 1 (Obj final_result) Null)]
       microphone_session)
    = speechRecognizer microphone_session.
Proof.
  split; [reflexivity|].
  apply (recognizer_changed_only_by_initialize
           [(platform_ok, OpStart (url_args 2)); (platform_ok, OpStop);
            (platform_ok, OpResult 1 (Obj final_result) Null)]
           microphone_session eq_refl).
  repeat constructor.
Defined.
